(** * Scoring engine, history store and check cycle of the BTC/ETH sentiment monitor

    A shallow embedding of [app.py]: the z-score and its 0-100 normalisation,
    the weighted aggregate, the JSON history files and one pass of
    [single_check], followed by the properties proved about them.

    Numbers.  Python computes on binary64 floats (and on the [int] 0 of the
    whale counter).  Here a number is a real ([R]): sums, quotients and the
    square root are the exact ones, there is no rounding, no NaN and no
    infinity.  The properties are statements about that idealised
    arithmetic; the two functions that only add, multiply, divide and
    compare are also written on binary64 floats ([normalize_score_b64],
    [weighted_raw_b64]) and evaluated at the points the properties name.

    Python objects.  What [json.load] hands back is a [pyval]; what a file
    may hold is either such a value or text on which opening or decoding
    raises ([Corrupt]).  A Python exception that leaves a function is the
    result [None].  A [str] is held as the bytes of its UTF-8 encoding, and
    its characters are the code points those bytes spell ([code_points]).

    Files.  The store maps a path, as a string, to what is found there.
    Two strings that differ are taken to name different files, which is the
    case for the paths the program builds: every one is the cache directory
    followed by one plain file name.  An asset or metric name containing
    [/] would place the file elsewhere; the properties that tell files
    apart exclude such names.

    The outside world.  [env] holds what the fetchers returned during a
    pass, so the pass described here is one in which every fetcher returns;
    when a fetcher returns and when it raises is described separately, on
    the answer of the request ([fetch_price_coingecko_value],
    [fetch_glassnode_value]). *)

From Stdlib Require Import Floats Reals Lra Lia ZArith Ascii.
From stdpp Require Import gmap strings list.

#[local] Open Scope R_scope.
#[local] Set Warnings "-register-all,-inexact-float".

(** ** Python values *)

(** The objects [json.load] can return. *)
Inductive pyval : Type :=
| PNone
| PBool (b : bool)
| PNum (x : R)
| PStr (s : string)
| PList (l : list pyval)
| PDict (d : list (string * pyval)).

(** Truth value of an object, as [not hist] tests it. *)
Definition truthy (v : pyval) : bool :=
  match v with
  | PNone => false
  | PBool b => b
  | PNum x => if Req_dec_T x 0 then false else true
  | PStr s => negb (String.eqb s EmptyString)
  | PList l => match l with [] => false | _ => true end
  | PDict d => match d with [] => false | _ => true end
  end.

(** A byte [10xxxxxx] continues the code point begun before it. *)
Definition is_continuation (c : ascii) : bool :=
  match c with
  | Ascii _ _ _ _ _ _ b6 b7 => b7 && negb b6
  end.

(** Whether a string starts in the middle of a code point. *)
Definition continues (s : string) : bool :=
  match s with
  | String c _ => is_continuation c
  | EmptyString => false
  end.

(** The characters of a [str]: each leading byte with the continuation
    bytes that follow it. *)
Fixpoint code_points (s : string) : list string :=
  match s with
  | EmptyString => []
  | String c rest =>
      match code_points rest with
      | cp :: cps =>
          if continues rest then String c cp :: cps
          else String c EmptyString :: cp :: cps
      | [] => [String c EmptyString]
      end
  end.

(** The [str] made of a list of characters. *)
Definition str_of_code_points (cps : list string) : string :=
  foldr String.append EmptyString cps.

(** [len(v)]: the number of characters of a [str], of items of a list, of
    keys of a dict; a number, a boolean and [None] have no length
    (TypeError). *)
Definition py_len (v : pyval) : option nat :=
  match v with
  | PStr s => Some (length (code_points s))
  | PList l => Some (length l)
  | PDict d => Some (length d)
  | _ => None
  end.

(** [l[start:]] on a sequence: a negative start counts from the end, and
    both ends saturate. *)
Definition slice_from {A : Type} (start : Z) (l : list A) : list A :=
  let n := Z.of_nat (length l) in
  let i := if (start <? 0)%Z then Z.max (n + start) 0 else Z.min start n in
  drop (Z.to_nat i) l.

(** The same slice on a [str], which counts characters. *)
Definition str_slice_from (start : Z) (s : string) : string :=
  str_of_code_points (slice_from start (code_points s)).

(** A list of floats as a Python object. *)
Definition floats (xs : list R) : pyval := PList (PNum <$> xs).

(** *** Insertion-ordered dictionaries with string keys *)

Definition dict (V : Type) : Type := list (string * V).

(** [d.get(k)] *)
Fixpoint dict_get {V : Type} (d : dict V) (k : string) : option V :=
  match d with
  | [] => None
  | (k', v) :: d' => if String.eqb k' k then Some v else dict_get d' k
  end.

(** [d[k] = v]: an existing key keeps its place, a new one goes last. *)
Fixpoint dict_set {V : Type} (d : dict V) (k : string) (v : V) : dict V :=
  match d with
  | [] => [(k, v)]
  | (k', v') :: d' =>
      if String.eqb k' k then (k', v) :: d' else (k', v') :: dict_set d' k v
  end.

(** [d.get(k, dflt)] *)
Definition dict_get_default {V : Type} (d : dict V) (k : string) (dflt : V) : V :=
  default dflt (dict_get d k).

(** ** The [statistics] module *)

(** The numeric reading of one datum: [bool] is a subclass of [int]; any
    other non-number makes [statistics] raise TypeError. *)
Definition as_number (v : pyval) : option R :=
  match v with
  | PNum x => Some x
  | PBool b => Some (if b then 1 else 0)
  | _ => None
  end.

(** The data [statistics.mean] and [statistics.pstdev] iterate over.
    Iterating a [str] yields characters and a [dict] yields its keys, which
    are not numbers; this is only reached with at least two items. *)
Definition numbers (v : pyval) : option (list R) :=
  match v with
  | PList l => mapM as_number l
  | _ => None
  end.

Definition rsum (xs : list R) : R := foldr Rplus 0 xs.

(** [statistics.mean]: the arithmetic mean (called on non-empty data only). *)
Definition mean (xs : list R) : R := rsum xs / INR (length xs).

(** [statistics.pvariance]: the mean squared deviation from the mean. *)
Definition pvariance (xs : list R) : R :=
  rsum ((fun x => (x - mean xs) * (x - mean xs)) <$> xs) / INR (length xs).

(** [statistics.pstdev]: the square root of the population variance. *)
Definition pstdev (xs : list R) : R := sqrt (pvariance xs).

(** ** Scoring (z-score, then a 0-100 scale) *)

Definition compute_zscore (value : R) (hist : pyval) : option R :=
  if negb (truthy hist) then Some 0
  else
    n ← py_len hist;
    if (n <? 2)%nat then Some 0
    else
      xs ← numbers hist;
      let mu := mean xs in
      let sigma := pstdev xs in
      if Req_dec_T sigma 0 then Some 0
      else Some ((value - mu) / sigma).

Definition normalize_score (raw minv maxv : R) : R :=
  let clipped := Rmax (Rmin raw maxv) minv in
  (clipped - minv) / (maxv - minv) * 100.

(** The loop [for k, v in metrics.items(): z[k] = compute_zscore(...)],
    started from the dictionary [z]. *)
Fixpoint zscores (items : dict R) (hist_stats : dict pyval) (z : dict R)
  : option (dict R) :=
  match items with
  | [] => Some z
  | (k, v) :: rest =>
      zk ← compute_zscore v (dict_get_default hist_stats k (PList []));
      zscores rest hist_stats (dict_set z k zk)
  end.

(** The six [raw += ...] lines. *)
Definition weighted_raw (z : dict R) : R :=
  let raw := 0 in
  let raw := raw + dict_get_default z "etf_netflow" 0 * 0.30 in
  let raw := raw + dict_get_default z "exchange_netflow" 0 * 0.15 in
  let raw := raw + dict_get_default z "oi_change_pct" 0 * 0.15 in
  let raw := raw + dict_get_default z "funding_rate" 0 * 0.10 in
  let raw := raw + dict_get_default z "whale_count" 0 * 0.10 in
  let raw := raw + (- dict_get_default z "reserve_change_pct" 0) * 0.20 in
  raw.

Definition compute_overheat_score (metrics : dict R) (hist_stats : dict pyval)
  : option (R * dict R) :=
  z ← zscores metrics hist_stats [];
  let raw := weighted_raw z in
  let score := normalize_score raw (-3) 3 in
  Some (score, z).

(** *** The same arithmetic on binary64 floats *)

(** [min(a, b)] and [max(a, b)]: the second argument wins only when the
    comparison with the first holds, so a NaN first argument is returned. *)
Definition py_min_b64 (a b : float) : float := if PrimFloat.ltb b a then b else a.

Definition py_max_b64 (a b : float) : float := if PrimFloat.ltb a b then b else a.

Definition normalize_score_b64 (raw minv maxv : float) : float :=
  let clipped := py_max_b64 (py_min_b64 raw maxv) minv in
  ((clipped - minv) / (maxv - minv) * 100)%float.

Definition weighted_raw_b64 (z : dict float) : float :=
  let raw := 0%float in
  let raw := (raw + dict_get_default z "etf_netflow" 0 * 0.30)%float in
  let raw := (raw + dict_get_default z "exchange_netflow" 0 * 0.15)%float in
  let raw := (raw + dict_get_default z "oi_change_pct" 0 * 0.15)%float in
  let raw := (raw + dict_get_default z "funding_rate" 0 * 0.10)%float in
  let raw := (raw + dict_get_default z "whale_count" 0 * 0.10)%float in
  let raw := (raw + (- dict_get_default z "reserve_change_pct" 0) * 0.20)%float in
  raw.

(** ** History files *)

(** What is found at a path that exists: [Corrupt] when [open] or
    [json.load] raises on it (unreadable, truncated, not JSON), otherwise the
    decoded value.  A path that does not exist is absent from the map. *)
Inductive file : Type :=
| Corrupt
| Parsed (v : pyval).

Definition HIST_DIR : string := ".hist_cache_overheat".

(** [os.path.join(HIST_DIR, name)] on a POSIX system: an absolute second
    component replaces the first. *)
Definition path_join (dir name : string) : string :=
  match name with
  | String "/"%char _ => name
  | _ => dir +:+ "/" +:+ name
  end.

Definition hist_path (asset metric : string) : string :=
  path_join HIST_DIR (asset +:+ "__" +:+ metric +:+ ".json").

Definition load_hist (fs : gmap string file) (asset metric : string) (days : Z)
  : pyval :=
  let p := hist_path asset metric in
  match fs !! p with
  | None => PList []
  | Some Corrupt => PList []
  | Some (Parsed arr) =>
      match arr with
      | PList l => PList (slice_from (- days)%Z l)
      | PStr s => PStr (str_slice_from (- days)%Z s)
      | _ => PList []
      end
  end.

(** [None]: [arr.append] raises AttributeError, the decoded value not being
    a list.  Writing the file is taken to succeed. *)
Definition append_hist (fs : gmap string file) (asset metric : string)
    (value : pyval) : option (gmap string file) :=
  let p := hist_path asset metric in
  let arr :=
    match fs !! p with
    | None => PList []
    | Some Corrupt => PList []
    | Some (Parsed v) => v
    end in
  match arr with
  | PList l =>
      let arr := l ++ [value] in
      let arr := slice_from (-180)%Z arr in
      Some (<[p := Parsed (PList arr)]> fs)
  | _ => None
  end.

(** ** One pass of [single_check] *)

Inductive tag : Type := OVERHEAT | OVERSOLD.

(** The dictionary returned by [fetch_price_coingecko]. *)
Record price_info : Type := {
  price : option R;
  price_change_24h_pct : option R
}.

(** The dictionary [rec] built for one asset. *)
Record check_record : Type := {
  rec_time : string;
  rec_symbol : string;
  rec_price : option R;
  rec_price_change_24h_pct : option R;
  rec_score : R;
  rec_metrics : dict R;
  rec_z : dict R
}.

(** The module-level settings read once from the secrets. *)
Record config : Type := {
  GMAIL_USER : option string;
  GMAIL_APP_PASS : option string;
  ALERT_EMAIL_TO : option string;
  SERVERCHAN_SENDKEY : option string;
  OVERHEAT_THRESHOLD : R;
  OVERSOLD_THRESHOLD : R
}.

(** What the outside world answers during one pass.  [glassnode_try] gives
    [None] or a number ([float(v)] is taken to succeed on it);
    [smtp_session] tells whether the SMTP exchange runs to its end without
    raising; [serverchan_post] is the HTTP status, [None] when the request
    raises.  The two fetchers stand for calls that returned: a pass in
    which [fetch_price_coingecko] or [float(v)] raises is not described by
    an [env]. *)
Record env : Type := {
  now_utc_str : string;
  fetch_price_coingecko : string -> price_info;
  glassnode_try : string -> string -> option R;
  smtp_session : string -> string -> bool;
  serverchan_post : string -> string -> option Z
}.

Definition ASSETS : dict string := [("BTC", "bitcoin"); ("ETH", "ethereum")].

Definition fetch_exchange_flow (e : env) (sym : string) : R :=
  match glassnode_try e "transactions/TransfersVolumeToExchangesSum" sym with
  | Some v => v
  | None => 0
  end.

Definition fetch_etf_netflow (e : env) (sym : string) : R :=
  match glassnode_try e "institutions/UsSpotEtfFlowsNet" sym with
  | Some v => v
  | None => 0
  end.

Definition fetch_funding_rate (e : env) (sym : string) : R :=
  match glassnode_try e "derivatives/FuturesFundingRatePerpetual" sym with
  | Some v => v
  | None => 0
  end.

Definition fetch_oi_change_pct (sym : string) : R := 0.

Definition fetch_reserve_change_pct (sym : string) : R := 0.

Definition fetch_whale_count (sym : string) (threshold_amount : R) : R := 0.

(** A secret that is set: neither [None] nor the empty string. *)
Definition secret_set (s : option string) : bool :=
  match s with
  | Some v => negb (String.eqb v EmptyString)
  | None => false
  end.

(** One call of a notification function, with the boolean it returned. *)
Inductive channel : Type := Email | ServerChan.

Record delivery : Type := {
  via : channel;
  d_title : string;
  d_content : string;
  d_ok : bool
}.

(** What [single_check] returns. *)
Record outcome : Type := {
  out_time : string;
  out_results : list check_record;
  out_alerts : list (tag * check_record)
}.

Definition newline : string := String "010"%char EmptyString.

Definition opt_num (o : option R) : pyval :=
  match o with
  | Some x => PNum x
  | None => PNone
  end.

Definition num_dict (d : dict R) : pyval :=
  PDict ((fun kv => (kv.1, PNum kv.2)) <$> d).

(** [rec] as [json.dump] writes it. *)
Definition record_json (r : check_record) : pyval :=
  PDict [("time", PStr (rec_time r));
         ("symbol", PStr (rec_symbol r));
         ("price", opt_num (rec_price r));
         ("price_change_24h_pct", opt_num (rec_price_change_24h_pct r));
         ("score", PNum (rec_score r));
         ("metrics", num_dict (rec_metrics r));
         ("z", num_dict (rec_z r))].

Section Check.

Variable cfg : config.

(** Lines 275-296: the text of the message, assembled from the title, the
    tag, the record and the two thresholds with Python's number
    formatting.  No property below depends on the text. *)
Variable detailed_body : string -> tag -> check_record -> string.

(** Lines 262-265: which alert, if any, a score raises. *)
Definition alert_tag (score : R) : option tag :=
  if Rge_dec score (OVERHEAT_THRESHOLD cfg) then Some OVERHEAT
  else if Rle_dec score (OVERSOLD_THRESHOLD cfg) then Some OVERSOLD
  else None.

Definition send_email_gmail_shorttitle (e : env) (subject_short body : string)
  : bool :=
  if negb (secret_set (GMAIL_USER cfg) && secret_set (GMAIL_APP_PASS cfg)
           && secret_set (ALERT_EMAIL_TO cfg))
  then false
  else if smtp_session e subject_short body then true
  else false.

Definition send_serverchan (e : env) (title content_md : string) : bool :=
  if negb (secret_set (SERVERCHAN_SENDKEY cfg)) then false
  else
    match serverchan_post e title content_md with
    | Some status => if (status =? 200)%Z then true else false
    | None => false
    end.

(** Lines 255-258: for each metric, load the history, keep it, then append
    the fresh value. *)
Fixpoint history_pass (cg_id : string) (items : dict R)
    (fs : gmap string file) (hist_stats : dict pyval)
  : option (dict pyval * gmap string file) :=
  match items with
  | [] => Some (hist_stats, fs)
  | (k, v) :: rest =>
      let h := load_hist fs cg_id k 90 in
      let hist_stats := dict_set hist_stats k h in
      fs' ← append_hist fs cg_id k (PNum v);
      history_pass cg_id rest fs' hist_stats
  end.

(** Lines 245-252: the dictionary [metrics] of one asset. *)
Definition fetch_metrics (e : env) (sym : string) : dict R :=
  [("etf_netflow", fetch_etf_netflow e sym);
   ("exchange_netflow", fetch_exchange_flow e sym);
   ("oi_change_pct", fetch_oi_change_pct sym);
   ("funding_rate", fetch_funding_rate e sym);
   ("whale_count",
     fetch_whale_count sym (if String.eqb sym "BTC" then 100 else 1000));
   ("reserve_change_pct", fetch_reserve_change_pct sym)].

(** Lines 244-260: the record of one asset. *)
Definition check_asset (e : env) (fs : gmap string file) (sym cg_id : string)
  : option (check_record * gmap string file) :=
  let info := fetch_price_coingecko e cg_id in
  let metrics := fetch_metrics e sym in
  '(hist_stats, fs') ← history_pass cg_id metrics fs [];
  '(score, z) ← compute_overheat_score metrics hist_stats;
  Some ({| rec_time := now_utc_str e;
           rec_symbol := sym;
           rec_price := price info;
           rec_price_change_24h_pct := price_change_24h_pct info;
           rec_score := score;
           rec_metrics := metrics;
           rec_z := z |}, fs').

(** Lines 243-265: the loop over the assets. *)
Fixpoint check_assets (e : env) (assets : dict string)
    (fs : gmap string file) (alerts : list (tag * check_record))
    (results : list check_record)
  : option (list (tag * check_record) * list check_record * gmap string file) :=
  match assets with
  | [] => Some (alerts, results, fs)
  | (sym, cg_id) :: rest =>
      '(rec, fs') ← check_asset e fs sym cg_id;
      let results := results ++ [rec] in
      let alerts :=
        match alert_tag (rec_score rec) with
        | Some t => alerts ++ [(t, rec)]
        | None => alerts
        end in
      check_assets e rest fs' alerts results
  end.

Definition alert_title (t : tag) (sym : string) : string :=
  (match t with OVERHEAT => "⚠️" | OVERSOLD => "🔔" end) +:+ " " +:+ sym
  +:+ " " +:+ (match t with OVERHEAT => "过热" | OVERSOLD => "超跌" end)
  +:+ " 警报".

(** Lines 267-300: the calls made for the queued alerts, in order. *)
Fixpoint notify (e : env) (alerts : list (tag * check_record)) : list delivery :=
  match alerts with
  | [] => []
  | (t, rec) :: rest =>
      let title := alert_title t (rec_symbol rec) in
      let body := detailed_body title t rec in
      let md := "```" +:+ newline +:+ body +:+ newline +:+ "```" in
      let sent_mail := send_email_gmail_shorttitle e title body in
      let sent_push := send_serverchan e title md in
      {| via := Email; d_title := title; d_content := body; d_ok := sent_mail |}
      :: {| via := ServerChan; d_title := title; d_content := md; d_ok := sent_push |}
      :: notify e rest
  end.

Definition last_run_json (t : string) (results : list check_record)
    (alerts : list (tag * check_record)) : pyval :=
  PDict [("time", PStr t);
         ("results", PList (record_json <$> results));
         ("alerts", PList (record_json <$> (snd <$> alerts)))].

(** [None]: the loop over the assets raised; nothing is sent and
    [last_run.json] is not written. *)
Definition single_check (e : env) (fs : gmap string file)
  : option (outcome * gmap string file * list delivery) :=
  let t := now_utc_str e in
  '(alerts, results, fs1) ← check_assets e ASSETS fs [] [];
  let sent := notify e alerts in
  let fs2 :=
    <[path_join HIST_DIR "last_run.json" :=
        Parsed (last_run_json t results alerts)]> fs1 in
  Some ({| out_time := t; out_results := results; out_alerts := alerts |},
        fs2, sent).

End Check.

(** ** The formulas of the specification *)

(** [clip(raw, lo, hi)] *)
Definition clip (raw lo hi : R) : R :=
  if Rlt_dec raw lo then lo else if Rlt_dec hi raw then hi else raw.

(** The z-score of a value against a window of floats: 0 below two points
    or at standard deviation 0, otherwise the distance to the mean in
    standard deviations. *)
Definition zscore (value : R) (history : list R) : R :=
  if decide (length history < 2)%nat then 0
  else if Req_dec_T (pstdev history) 0 then 0
  else (value - mean history) / pstdev history.

(** ** Auxiliary notions used in the statements *)

(** A mapping of float windows as the Python object [hist_stats]. *)
Definition typed (hists : dict (list R)) : dict pyval :=
  (fun kv => (kv.1, floats kv.2)) <$> hists.

(** The list [arr] that [append_hist] extends at path [p]: empty for a
    missing or corrupt file, [None] when the file decodes to something that
    is not a list. *)
Definition window (fs : gmap string file) (p : string) : option (list pyval) :=
  match fs !! p with
  | None => Some []
  | Some Corrupt => Some []
  | Some (Parsed (PList l)) => Some l
  | Some (Parsed _) => None
  end.


(** The names of the six metrics, in the order of the dictionary. *)
Definition METRICS : list string :=
  ["etf_netflow"; "exchange_netflow"; "oi_change_pct"; "funding_rate";
   "whale_count"; "reserve_change_pct"].

(** The history files of one asset, and of a list of assets. *)
Definition asset_paths (cg_id : string) : list string :=
  hist_path cg_id <$> METRICS.

Definition all_paths (assets : dict string) : list string :=
  mjoin (asset_paths <$> assets.*2).

(** The alert, if any, that a record raises. *)
Definition alert_of (cfg : config) (r : check_record) : option (tag * check_record) :=
  (fun t => (t, r)) <$> alert_tag cfg (rec_score r).

(** The last [k] elements of a list, oldest first. *)
Definition lastn {A : Type} (k : nat) (l : list A) : list A :=
  drop (length l - k) l.

(** The settings when no secret is configured: thresholds 60 and 30. *)
Definition default_config : config :=
  {| GMAIL_USER := None; GMAIL_APP_PASS := None; ALERT_EMAIL_TO := None;
     SERVERCHAN_SENDKEY := None;
     OVERHEAT_THRESHOLD := 60; OVERSOLD_THRESHOLD := 30 |}.

(** A world in which no provider answers and every delivery fails. *)
Definition offline : env :=
  {| now_utc_str := "2024-01-01 00:00:00 UTC";
     fetch_price_coingecko := fun _ => {| price := None; price_change_24h_pct := None |};
     glassnode_try := fun _ _ => None;
     smtp_session := fun _ _ => false;
     serverchan_post := fun _ _ => None |}.

(** What a completed pass leaves for one asset, between the store [fs] it
    started from and the store [fs'] it ended with: the record carries the
    fetched metrics and the normalised aggregate, each z-score was computed
    against the history as it was loaded from [fs], and the file of each
    metric holds the window of [fs] extended by the fresh value. *)
Definition asset_checked (e : env) (fs fs' : gmap string file)
    (sym cg_id : string) (r : check_record) : Prop :=
  rec_time r = now_utc_str e /\
  rec_symbol r = sym /\
  rec_metrics r = fetch_metrics e sym /\
  rec_score r = normalize_score (weighted_raw (rec_z r)) (-3) 3 /\
  forall k v, (k, v) ∈ fetch_metrics e sym ->
    exists l,
      window fs (hist_path cg_id k) = Some l /\
      dict_get (rec_z r) k = compute_zscore v (load_hist fs cg_id k 90) /\
      fs' !! hist_path cg_id k
      = Some (Parsed (PList (lastn 180 (l ++ [PNum v])))).

(** Every history file of the assets is missing, corrupt or a list of
    finite floats (a [PNum] carries a real number). *)
Definition typed_store (fs : gmap string file) (assets : dict string) : Prop :=
  forall q, q ∈ all_paths assets ->
    exists xs : list R, window fs q = Some (PNum <$> xs).

(** The world [e] with other answers from the two delivery channels. *)
Definition with_channels (e : env) (smtp : string -> string -> bool)
    (post : string -> string -> option Z) : env :=
  {| now_utc_str := now_utc_str e;
     fetch_price_coingecko := fetch_price_coingecko e;
     glassnode_try := glassnode_try e;
     smtp_session := smtp;
     serverchan_post := post |}.

(** A world in which every provider metric reads [x] and every delivery
    fails. *)
Definition feed (x : R) : env :=
  {| now_utc_str := "2024-01-01 00:00:00 UTC";
     fetch_price_coingecko := fun _ => {| price := None; price_change_24h_pct := None |};
     glassnode_try := fun _ _ => Some x;
     smtp_session := fun _ _ => false;
     serverchan_post := fun _ _ => None |}.

(** A record with a given symbol and score, for examples. *)
Definition sample_record (sym : string) (score : R) : check_record :=
  {| rec_time := "2024-01-01 00:00:00 UTC";
     rec_symbol := sym;
     rec_price := None;
     rec_price_change_24h_pct := None;
     rec_score := score;
     rec_metrics := [];
     rec_z := [] |}.

(** The text ServerChan receives: the body inside a code fence. *)
Definition fenced (body : string) : string :=
  "```" +:+ newline +:+ body +:+ newline +:+ "```".

(** A world in which Glassnode provides the ETF flow only, [btc] for BTC
    and [eth] for any other symbol, and every delivery fails. *)
Definition etf_feed (btc eth : R) : env :=
  {| now_utc_str := "2024-01-01 00:00:00 UTC";
     fetch_price_coingecko := fun _ => {| price := None; price_change_24h_pct := None |};
     glassnode_try := fun metric sym =>
       if String.eqb metric "institutions/UsSpotEtfFlowsNet"
       then Some (if String.eqb sym "BTC" then btc else eth)
       else None;
     smtp_session := fun _ _ => false;
     serverchan_post := fun _ _ => None |}.

(** A store in which every history file of the two assets holds 1.0, 3.0. *)
Definition seeded : gmap string file :=
  list_to_map ((fun q => (q, Parsed (floats [1; 3]))) <$> all_paths ASSETS).

(** ** The data fetchers *)

(** [j[0]]: the first item of a list, the first character of a string;
    [None] for the KeyError of a dict (its keys are strings), the IndexError
    of an empty sequence and the TypeError of anything else. *)
Definition py_first (j : pyval) : option pyval :=
  match j with
  | PList (x :: _) => Some x
  | PStr s =>
      match code_points s with
      | cp :: _ => Some (PStr cp)
      | [] => None
      end
  | _ => None
  end.

(** [d.get(k)]: the value or Python's [None]; only a dict has [get]
    (AttributeError otherwise). *)
Definition py_dict_get (d : pyval) (k : string) : option pyval :=
  match d with
  | PDict kv => Some (default PNone (dict_get kv k))
  | _ => None
  end.

(** The body of [fetch_price_coingecko] on the answer [j] of
    [http_get_json] ([None] when the request raised): the pair of the
    price and the 24h change, [None] when the body raises. *)
Definition fetch_price_coingecko_value (j : option pyval)
  : option (pyval * pyval) :=
  match j with
  | None => Some (PNone, PNone)
  | Some j =>
      if negb (truthy j) then Some (PNone, PNone)
      else
        d ← py_first j;
        p ← py_dict_get d "current_price";
        c ← py_dict_get d "price_change_percentage_24h";
        Some (p, c)
  end.

(** The body of [glassnode_try] with the key [api_key] on the decoded
    answer [response] of the request ([None] when the request or the
    decoding raised).  Python's [None] is [PNone]. *)
Definition glassnode_try_value (api_key : option string)
    (response : option pyval) : pyval :=
  if negb (secret_set api_key) then PNone
  else
    match response with
    | None => PNone
    | Some data =>
        match data with
        | PList (point :: points) =>
            match last (point :: points) with
            | Some (PDict kv) => default PNone (dict_get kv "v")
            | _ => PNone
            end
        | _ => data
        end
    end.

(** The least magnitude that [float] refuses to convert: halfway between
    the largest binary64 float and [2 ^ 1024]. *)
Definition FLOAT_OVERFLOW : R := IZR (2 ^ 1024 - 2 ^ 970).

Section Fetch.

(** [float(s)] on a string: the number it spells, [None] for ValueError. *)
Variable parse_float : string -> option R.

(** [float(v)]: TypeError ([None]) on Python's [None], a list or a dict.
    A number that a binary64 float cannot hold can only be an [int]
    ([json] reads an oversized float literal as an infinity, which is not
    a [PNum]), and [float] raises OverflowError on it. *)
Definition py_float (v : pyval) : option R :=
  match v with
  | PNum x => if Rlt_dec (Rabs x) FLOAT_OVERFLOW then Some x else None
  | PBool b => Some (if b then 1 else 0)
  | PStr s => parse_float s
  | _ => None
  end.

(** The body shared by [fetch_exchange_flow], [fetch_etf_netflow] and
    [fetch_funding_rate]: [float(v) if v is not None else 0.0]. *)
Definition fetch_glassnode_value (api_key : option string)
    (response : option pyval) : option R :=
  match glassnode_try_value api_key response with
  | PNone => Some 0
  | v => py_float v
  end.

End Fetch.

(** ** File names *)

(** Whether a name contains the path separator. *)
Fixpoint has_slash (s : string) : bool :=
  match s with
  | EmptyString => false
  | String c rest => Ascii.eqb c "/" || has_slash rest
  end.

(** The name of the history file of a key inside the cache directory, the
    second argument of the [os.path.join] of [hist_path]. *)
Definition hist_name (asset metric : string) : string :=
  asset +:+ "__" +:+ metric +:+ ".json".

(** ** Successive passes *)

(** Passes run one after the other, each from the store the one before
    left; [None] as soon as one raises. *)
Fixpoint run_passes (cfg : config)
    (detailed_body : string -> tag -> check_record -> string)
    (es : list env) (fs : gmap string file)
  : option (list outcome * gmap string file) :=
  match es with
  | [] => Some ([], fs)
  | e :: rest =>
      '(out, fs1, _) ← single_check cfg detailed_body e fs;
      '(outs, fs') ← run_passes cfg detailed_body rest fs1;
      Some (out :: outs, fs')
  end.

(** Every history file a pass over [assets] will touch is missing, corrupt
    or a list, and the last 90 entries of that list can be scored against
    the value fetched for the metric. *)
Definition scorable (e : env) (fs : gmap string file) (assets : dict string)
  : Prop :=
  forall sym cg_id k v,
    (sym, cg_id) ∈ assets -> (k, v) ∈ fetch_metrics e sym ->
    exists l,
      window fs (hist_path cg_id k) = Some l /\
      is_Some (compute_zscore v (PList (lastn 90 l))).

(** ** Settings *)

(** [get_secret(key, default)]: [secrets] is the secrets store, [None] when
    reading it raises (no secrets file); [environ] is the process
    environment.  A value found in the store is returned unless it is
    Python's [None]; otherwise [os.getenv(key, default)]. *)
Definition get_secret (secrets : option (dict pyval)) (environ : dict string)
    (key : string) (dflt : pyval) : pyval :=
  let from_store :=
    match secrets with
    | Some store =>
        match dict_get store key with
        | Some PNone | None => None
        | Some v => Some v
        end
    | None => None
    end in
  match from_store with
  | Some v => v
  | None =>
      match dict_get environ key with
      | Some s => PStr s
      | None => dflt
      end
  end.

(** Whether a setting read by [get_secret] counts as configured, as the
    [if not ...] tests of the notification functions see it. *)
Definition setting_set (v : pyval) : bool := truthy v.

(** * Properties *)

(** ** Statistics *)

Lemma rsum_const (c : R) (xs : list R) :
  (forall x, x ∈ xs -> x = c) -> rsum xs = INR (length xs) * c.
Proof.
  induction xs as [|a xs IH]; intros Hc.
  - simpl. lra.
  - change (rsum (a :: xs)) with (a + rsum xs).
    rewrite IH by (intros x Hx; apply Hc; by right).
    rewrite (Hc a) by left.
    cbn [length]. rewrite S_INR. lra.
Qed.

Lemma rsum_zero (xs : list R) :
  (forall x, x ∈ xs -> x = 0) -> rsum xs = 0.
Proof. intros H. rewrite (rsum_const 0) by done. lra. Qed.

Lemma mean_const (c : R) (xs : list R) :
  xs <> [] -> (forall x, x ∈ xs -> x = c) -> mean xs = c.
Proof.
  intros Hne Hc. unfold mean. rewrite (rsum_const c) by done.
  assert (INR (length xs) <> 0).
  { apply not_0_INR. destruct xs; simpl; [done | lia]. }
  by field.
Qed.

Lemma pvariance_const (xs : list R) :
  (forall x y, x ∈ xs -> y ∈ xs -> x = y) -> pvariance xs = 0.
Proof.
  intros Hc. unfold pvariance.
  destruct xs as [|c xs'] eqn:E; [simpl; lra | rewrite <- E in *].
  assert (Hall : forall x, x ∈ xs -> x = c).
  { intros x Hx. apply Hc; [done | rewrite E; left]. }
  assert (Hm : mean xs = c) by (apply mean_const; [by rewrite E | done]).
  rewrite rsum_zero; [lra |].
  intros y [x [-> Hx]]%list_elem_of_fmap.
  rewrite Hm, (Hall x Hx). lra.
Qed.

Lemma pstdev_const (xs : list R) :
  (forall x y, x ∈ xs -> y ∈ xs -> x = y) -> pstdev xs = 0.
Proof. intros Hc. unfold pstdev. rewrite pvariance_const by done. apply sqrt_0. Qed.

(** ** The z-score *)

Lemma numbers_floats (xs : list R) : numbers (floats xs) = Some xs.
Proof.
  unfold numbers, floats. induction xs as [|x xs IH]; [done |].
  rewrite fmap_cons. simpl. simpl in IH. by rewrite IH.
Qed.

Lemma compute_zscore_floats (value : R) (hist : list R) :
  compute_zscore value (floats hist) = Some (zscore value hist).
Proof.
  unfold compute_zscore, zscore.
  destruct hist as [|a hist]; [by rewrite decide_True by (simpl; lia) |].
  change (negb (truthy (floats (a :: hist)))) with false. cbv iota.
  change (py_len (floats (a :: hist))) with (Some (length (PNum <$> a :: hist))).
  rewrite length_fmap. simpl option_bind. cbn [mbind option_bind].
  destruct (Nat.ltb_spec (length (a :: hist)) 2) as [Hlt | Hge].
  - by rewrite decide_True.
  - rewrite decide_False by lia. rewrite numbers_floats. simpl.
    by destruct (Req_dec_T (pstdev (a :: hist)) 0).
Qed.

Lemma mean_1_3 : mean [1; 3] = 2.
Proof. unfold mean, rsum. simpl. lra. Qed.

Lemma pstdev_1_3 : pstdev [1; 3] = 1.
Proof.
  unfold pstdev, pvariance. rewrite mean_1_3. unfold rsum. simpl.
  replace ((1 - 2) * (1 - 2) + ((3 - 2) * (3 - 2) + 0)) with 2 by lra.
  replace (2 / (1 + 1)) with 1 by lra. apply sqrt_1.
Qed.

(** C1.  For every value and every window of floats, [compute_zscore]
    returns 0 when the window has fewer than two points or its population
    standard deviation is exactly 0, and otherwise
    [(value - mean) / pstdev]; on a constant window it returns 0 (a finite
    number), whatever the value. *)
Theorem compute_zscore_correct (value : R) (hist : list R) :
  ((length hist < 2)%nat \/ pstdev hist = 0 ->
     compute_zscore value (floats hist) = Some 0) /\
  ((2 <= length hist)%nat -> pstdev hist <> 0 ->
     compute_zscore value (floats hist)
     = Some ((value - mean hist) / pstdev hist)) /\
  ((forall x y, x ∈ hist -> y ∈ hist -> x = y) ->
     compute_zscore value (floats hist) = Some 0).
Proof.
  rewrite compute_zscore_floats. unfold zscore. repeat split.
  - intros [Hlt | Hsd].
    + by rewrite decide_True.
    + destruct (decide (length hist < 2)%nat); [done |].
      by destruct (Req_dec_T (pstdev hist) 0).
  - intros Hlen Hsd. rewrite decide_False by lia.
    by destruct (Req_dec_T (pstdev hist) 0).
  - intros Hc. destruct (decide (length hist < 2)%nat); [done |].
    destruct (Req_dec_T (pstdev hist) 0) as [|Hsd]; [done |].
    by destruct Hsd; apply pstdev_const.
Qed.

Lemma compute_zscore_correct_witness :
  compute_zscore 7 (floats [4]) = Some 0 /\
  compute_zscore 3 (floats [1; 3]) = Some ((3 - mean [1; 3]) / pstdev [1; 3]) /\
  compute_zscore 9 (floats [5; 5; 5]) = Some 0.
Proof.
  split; [| split].
  - apply (proj1 (compute_zscore_correct 7 [4])). left. simpl. lia.
  - apply (proj1 (proj2 (compute_zscore_correct 3 [1; 3]))).
    + simpl. lia.
    + rewrite pstdev_1_3. lra.
  - apply (proj2 (proj2 (compute_zscore_correct 9 [5; 5; 5]))).
    intros x y Hx Hy.
    repeat match goal with
           | H : _ ∈ _ :: _ |- _ => apply elem_of_cons in H; destruct H as [-> | H]
           | H : _ ∈ [] |- _ => by apply elem_of_nil in H
           end; reflexivity.
Defined.

(** ** Normalisation *)

Ltac rle_cases :=
  repeat match goal with
         | |- context [Rle_dec ?a ?b] => destruct (Rle_dec a b)
         end.

Lemma normalize_score_clip (raw : R) :
  normalize_score raw (-3) 3 = (clip raw (-3) 3 - (-3)) / (3 - (-3)) * 100.
Proof.
  unfold normalize_score, clip, Rmax, Rmin.
  repeat (destruct (Rle_dec _ _) || destruct (Rlt_dec _ _)); lra.
Qed.

(** C3.  [normalize_score] with its bounds -3 and 3 is the clip-and-rescale
    formula, is monotonic non-decreasing, takes 0, -3, 3, -10 and 10 to 50,
    0, 100, 0 and 100, and stays within [0, 100]. *)
Theorem normalize_score_properties :
  (forall raw,
     normalize_score raw (-3) 3 = (clip raw (-3) 3 - (-3)) / (3 - (-3)) * 100) /\
  (forall a b, a <= b -> normalize_score a (-3) 3 <= normalize_score b (-3) 3) /\
  normalize_score 0 (-3) 3 = 50 /\
  normalize_score (-3) (-3) 3 = 0 /\
  normalize_score 3 (-3) 3 = 100 /\
  normalize_score (-10) (-3) 3 = 0 /\
  normalize_score 10 (-3) 3 = 100 /\
  (forall raw, 0 <= normalize_score raw (-3) 3 <= 100).
Proof.
  split; [exact normalize_score_clip |].
  unfold normalize_score.
  repeat split; intros; unfold Rmin; rle_cases; unfold Rmax; rle_cases; lra.
Qed.

Lemma normalize_score_properties_witness :
  normalize_score 1 (-3) 3 <= normalize_score 2 (-3) 3.
Proof.
  apply (proj1 (proj2 normalize_score_properties) 1 2). lra.
Defined.

(** *** On binary64 floats *)

(** The five points of C3 evaluate to the same results in float arithmetic. *)
Lemma normalize_score_b64_points :
  normalize_score_b64 0 (-3) 3 = 50%float /\
  normalize_score_b64 (-3) (-3) 3 = 0%float /\
  normalize_score_b64 3 (-3) 3 = 100%float /\
  normalize_score_b64 (-10) (-3) 3 = 0%float /\
  normalize_score_b64 10 (-3) 3 = 100%float.
Proof. repeat split. Qed.

(** The cold start of C7 in float arithmetic: six z-scores 0.0 give the
    aggregate 0.0 and the score 50.0. *)
Lemma cold_start_b64 :
  let z := [("etf_netflow", 0%float); ("exchange_netflow", 0%float);
            ("oi_change_pct", 0%float); ("funding_rate", 0%float);
            ("whale_count", 0%float); ("reserve_change_pct", 0%float)] in
  weighted_raw_b64 z = 0%float /\
  normalize_score_b64 (weighted_raw_b64 z) (-3) 3 = 50%float.
Proof. split; reflexivity. Qed.

(** Outside the reals: a NaN aggregate is not clipped. *)
Lemma normalize_score_b64_nan :
  PrimFloat.is_nan (normalize_score_b64 nan (-3) 3) = true.
Proof. reflexivity. Qed.

(** ** Dictionaries *)

Lemma dict_get_set {V : Type} (d : dict V) (k k' : string) (v : V) :
  dict_get (dict_set d k v) k' = if decide (k = k') then Some v else dict_get d k'.
Proof.
  induction d as [|[k0 v0] d IH]; simpl.
  - destruct (String.eqb_spec k k'); by case_decide.
  - destruct (String.eqb_spec k0 k) as [-> | Hne]; simpl.
    + destruct (String.eqb_spec k k'); by case_decide.
    + rewrite IH. destruct (String.eqb_spec k0 k'); [| done].
      case_decide; congruence.
Qed.

Lemma dict_get_absent {V : Type} (d : dict V) (k : string) :
  k ∉ d.*1 -> dict_get d k = None.
Proof.
  induction d as [|[k0 v0] d IH]; [done |]. simpl. intros Hn.
  apply not_elem_of_cons in Hn as [Hne Hn].
  destruct (String.eqb_spec k0 k); [congruence | auto].
Qed.

Lemma dict_get_fmap {V W : Type} (f : V -> W) (d : dict V) (k : string) :
  dict_get ((fun kv => (kv.1, f kv.2)) <$> d) k = f <$> dict_get d k.
Proof.
  induction d as [|[k0 v0] d IH]; [done |]. simpl.
  by destruct (String.eqb k0 k).
Qed.

(** ** The weighted aggregate *)

Lemma typed_get_default (hists : dict (list R)) (k : string) :
  dict_get_default (typed hists) k (PList []) = floats (default [] (dict_get hists k)).
Proof.
  unfold dict_get_default, typed. rewrite dict_get_fmap.
  by destruct (dict_get hists k).
Qed.

Lemma zscores_get (items : dict R) (hist_stats : dict pyval) (z0 z : dict R) :
  NoDup items.*1 ->
  zscores items hist_stats z0 = Some z ->
  forall k,
    dict_get z k =
    match dict_get items k with
    | Some v => compute_zscore v (dict_get_default hist_stats k (PList []))
    | None => dict_get z0 k
    end.
Proof.
  revert z0. induction items as [|[k0 v0] rest IH]; intros z0 Hnd Hz k.
  - simpl in *. by injection Hz as ->.
  - rewrite fmap_cons in Hnd. apply NoDup_cons in Hnd as [Hfresh Hnd].
    simpl in Hz.
    destruct (compute_zscore v0 _) as [zk|] eqn:Hzk; [| done]. simpl in Hz.
    rewrite (IH _ Hnd Hz k). simpl.
    destruct (String.eqb_spec k0 k) as [<- | Hne].
    + rewrite (dict_get_absent rest k0 Hfresh), dict_get_set.
      by rewrite decide_True.
    + destruct (dict_get rest k); [done |].
      rewrite dict_get_set. by rewrite decide_False.
Qed.

Lemma zscores_typed_total (items : dict R) (hists : dict (list R)) (z0 : dict R) :
  is_Some (zscores items (typed hists) z0).
Proof.
  revert z0. induction items as [|[k0 v0] rest IH]; intros z0; [by eexists |].
  simpl. rewrite typed_get_default, compute_zscore_floats. simpl. apply IH.
Qed.

(** C2.  For every snapshot and every mapping of float windows, the score is
    the normalised aggregate, and the aggregate is the weighted sum of the
    per-metric z-scores with weights 0.30, 0.15, 0.15, 0.10, 0.10 and, on
    the negated z-score of [reserve_change_pct], 0.20; a metric absent from
    the snapshot counts for 0. *)
Theorem compute_overheat_score_weighted_sum
    (metrics : dict R) (hists : dict (list R)) :
  NoDup metrics.*1 ->
  let zof k :=
    match dict_get metrics k with
    | Some v => zscore v (default [] (dict_get hists k))
    | None => 0
    end in
  exists z,
    compute_overheat_score metrics (typed hists)
    = Some (normalize_score (weighted_raw z) (-3) 3, z) /\
    (forall k v, dict_get metrics k = Some v ->
       compute_zscore v (floats (default [] (dict_get hists k))) = Some (zof k)) /\
    weighted_raw z
    = zof "etf_netflow" * 0.30
      + zof "exchange_netflow" * 0.15
      + zof "oi_change_pct" * 0.15
      + zof "funding_rate" * 0.10
      + zof "whale_count" * 0.10
      + (- zof "reserve_change_pct") * 0.20.
Proof.
  intros Hnd zof.
  destruct (zscores_typed_total metrics hists []) as [z Hz].
  exists z. split; [| split].
  - unfold compute_overheat_score. by rewrite Hz.
  - intros k v Hk. unfold zof. rewrite Hk. apply compute_zscore_floats.
  - assert (Hget : forall k, dict_get_default z k 0 = zof k).
    { intros k. unfold dict_get_default, zof.
      rewrite (zscores_get _ _ _ _ Hnd Hz k).
      destruct (dict_get metrics k); [| done].
      by rewrite typed_get_default, compute_zscore_floats. }
    unfold weighted_raw. rewrite !Hget. lra.
Qed.

Lemma compute_overheat_score_weighted_sum_witness :
  exists z,
    compute_overheat_score [("etf_netflow", 3); ("reserve_change_pct", 3)]
      (typed [("etf_netflow", [1; 3]); ("reserve_change_pct", [1; 3])])
    = Some (normalize_score (weighted_raw z) (-3) 3, z) /\
    weighted_raw z = 0.10.
Proof.
  destruct (compute_overheat_score_weighted_sum
              [("etf_netflow", 3); ("reserve_change_pct", 3)]
              [("etf_netflow", [1; 3]); ("reserve_change_pct", [1; 3])])
    as (z & Hs & _ & Hraw).
  - compute_done.
  - exists z. split; [exact Hs |]. rewrite Hraw. simpl.
    unfold zscore. simpl. rewrite pstdev_1_3, mean_1_3.
    destruct (Req_dec_T 1 0); lra.
Defined.

(** ** Slices *)

Lemma slice_from_neg {A : Type} (k : Z) (l : list A) :
  (0 < k)%Z -> slice_from (- k) l = lastn (Z.to_nat k) l.
Proof.
  intros Hk. unfold slice_from, lastn.
  destruct (Z.ltb_spec (- k) 0); [| lia]. f_equal. lia.
Qed.

Lemma slice_from_zero {A : Type} (l : list A) : slice_from 0 l = l.
Proof. unfold slice_from. simpl. by rewrite Z.min_l by lia. Qed.

Lemma lastn_length {A : Type} (k : nat) (l : list A) :
  length (lastn k l) = (length l `min` k)%nat.
Proof. unfold lastn. rewrite length_drop. lia. Qed.

Lemma lastn_all {A : Type} (k : nat) (l : list A) :
  (length l <= k)%nat -> lastn k l = l.
Proof. intros H. unfold lastn. by replace (length l - k)%nat with 0%nat by lia. Qed.



Lemma lastn_last {A : Type} (k : nat) (l : list A) :
  (0 < k)%nat -> last (lastn k l) = last l.
Proof.
  intros Hk. destruct l as [|a l'] using rev_ind; [done |].
  unfold lastn. rewrite length_app. simpl.
  rewrite drop_app_le by lia. by rewrite !last_snoc.
Qed.

(** ** History files *)

Lemma load_hist_window (fs : gmap string file) (asset metric : string)
    (days : Z) (l : list pyval) :
  window fs (hist_path asset metric) = Some l ->
  load_hist fs asset metric days = PList (slice_from (- days) l).
Proof.
  unfold window, load_hist. intros H.
  destruct (fs !! hist_path asset metric) as [[|[]]|]; simplify_eq; try done.
  all: unfold slice_from; by rewrite drop_nil.
Qed.

Lemma slice_from_180 {A : Type} (l : list A) :
  slice_from (-180) l = lastn 180 l.
Proof. by apply (slice_from_neg 180). Qed.

Lemma append_hist_window (fs : gmap string file) (asset metric : string)
    (value : pyval) :
  append_hist fs asset metric value =
  l ← window fs (hist_path asset metric);
  Some (<[hist_path asset metric :=
            Parsed (PList (lastn 180 (l ++ [value])))]> fs).
Proof.
  unfold window, append_hist.
  destruct (fs !! hist_path asset metric) as [[|[]]|]; try done;
    by rewrite slice_from_180.
Qed.

Lemma window_insert (fs : gmap string file) (p q : string) (l : list pyval) :
  window (<[p := Parsed (PList l)]> fs) q
  = if decide (p = q) then Some l else window fs q.
Proof.
  unfold window. rewrite lookup_insert. by case_decide.
Qed.

Lemma load_hist_ext (fs fs' : gmap string file) (asset metric : string) (days : Z) :
  fs' !! hist_path asset metric = fs !! hist_path asset metric ->
  load_hist fs' asset metric days = load_hist fs asset metric days.
Proof. unfold load_hist. by intros ->. Qed.








(** ** One pass over the metrics of an asset *)

Lemma history_pass_spec (cg_id : string) (items : dict R) :
  forall (fs : gmap string file) (hs hs' : dict pyval) (fs' : gmap string file),
    NoDup (hist_path cg_id <$> items.*1) ->
    history_pass cg_id items fs hs = Some (hs', fs') ->
    (forall k v, (k, v) ∈ items ->
       exists l,
         window fs (hist_path cg_id k) = Some l /\
         dict_get hs' k = Some (load_hist fs cg_id k 90) /\
         fs' !! hist_path cg_id k
         = Some (Parsed (PList (lastn 180 (l ++ [PNum v]))))) /\
    (forall q, q ∉ hist_path cg_id <$> items.*1 -> fs' !! q = fs !! q) /\
    (forall k, k ∉ items.*1 -> dict_get hs' k = dict_get hs k).
Proof.
  induction items as [|[k0 v0] rest IH]; intros fs hs hs' fs' Hnd Hrun.
  - simpl in Hrun. simplify_eq. split; [| done].
    intros k v Hin. by apply elem_of_nil in Hin.
  - rewrite !fmap_cons in Hnd. apply NoDup_cons in Hnd as [Hfresh Hnd].
    simpl in Hfresh.
    simpl in Hrun. rewrite append_hist_window in Hrun.
    destruct (window fs (hist_path cg_id k0)) as [l0|] eqn:Hw0; [| done].
    simpl in Hrun.
    destruct (IH _ _ _ _ Hnd Hrun) as (Hkeys & Hframe & Hhs).
    assert (Hk0 : k0 ∉ rest.*1).
    { intros Hin. apply Hfresh. by apply list_elem_of_fmap_2. }
    split; [| split].
    + intros k v [Heq | Hin]%elem_of_cons.
      * injection Heq as -> ->. exists l0. split; [done |]. split.
        -- rewrite (Hhs k0 Hk0), dict_get_set. by rewrite decide_True.
        -- rewrite (Hframe _ Hfresh). by rewrite lookup_insert_eq.
      * assert (Hne : hist_path cg_id k0 <> hist_path cg_id k).
        { intros Heq. apply Hfresh. rewrite Heq.
          apply list_elem_of_fmap_2.
          by apply (list_elem_of_fmap_2 fst) in Hin. }
        destruct (Hkeys k v Hin) as (l & Hw & Hget & Hfile).
        exists l. rewrite window_insert, decide_False in Hw by done.
        split; [done |]. split; [| done].
        rewrite Hget. f_equal. apply load_hist_ext.
        by rewrite lookup_insert_ne.
    + intros q Hq. rewrite !fmap_cons in Hq.
      apply not_elem_of_cons in Hq as [Hq0 Hq].
      rewrite (Hframe q Hq). by rewrite lookup_insert_ne.
    + intros k Hk. rewrite fmap_cons in Hk.
      apply not_elem_of_cons in Hk as [Hk1 Hk].
      rewrite (Hhs k Hk), dict_get_set. by rewrite decide_False.
Qed.

Lemma history_pass_total (cg_id : string) (items : dict R) :
  forall (fs : gmap string file) (hs : dict pyval),
    NoDup (hist_path cg_id <$> items.*1) ->
    (forall k, k ∈ items.*1 -> is_Some (window fs (hist_path cg_id k))) ->
    is_Some (history_pass cg_id items fs hs).
Proof.
  induction items as [|[k0 v0] rest IH]; intros fs hs Hnd Hall; [by eexists |].
  rewrite !fmap_cons in Hnd. apply NoDup_cons in Hnd as [Hfresh Hnd].
    simpl in Hfresh.
  simpl. rewrite append_hist_window.
  destruct (Hall k0) as [l0 Hw0]; [rewrite fmap_cons; left |].
  rewrite Hw0. simpl. apply IH; [done |].
  intros k Hk. rewrite window_insert, decide_False.
  - apply Hall. rewrite fmap_cons. by right.
  - intros Heq. apply Hfresh. rewrite Heq. by apply list_elem_of_fmap_2.
Qed.

Lemma dict_get_elem {V : Type} (d : dict V) (k : string) (v : V) :
  NoDup d.*1 -> (k, v) ∈ d -> dict_get d k = Some v.
Proof.
  induction d as [|[k0 v0] d IH]; intros Hnd Hin; [by apply elem_of_nil in Hin |].
  rewrite fmap_cons in Hnd. apply NoDup_cons in Hnd as [Hfresh Hnd].
  simpl in *. apply elem_of_cons in Hin as [Heq | Hin].
  - injection Heq as -> ->. by rewrite String.eqb_refl.
  - destruct (String.eqb_spec k0 k) as [-> | Hne]; [| auto].
    destruct Hfresh. by apply (list_elem_of_fmap_2 fst) in Hin.
Qed.

Lemma metric_names (e : env) (sym : string) : (fetch_metrics e sym).*1 = METRICS.
Proof. reflexivity. Qed.

Lemma NoDup_METRICS : NoDup METRICS.
Proof. compute_done. Qed.

Lemma check_asset_spec (e : env) (fs fs' : gmap string file)
    (sym cg_id : string) (r : check_record) :
  NoDup (asset_paths cg_id) ->
  check_asset e fs sym cg_id = Some (r, fs') ->
  asset_checked e fs fs' sym cg_id r /\
  (forall q, q ∉ asset_paths cg_id -> fs' !! q = fs !! q).
Proof.
  intros Hnd Hrun. unfold check_asset in Hrun.
  destruct (history_pass cg_id (fetch_metrics e sym) fs [])
    as [[hs fs1]|] eqn:Hpass; [| done].
  simpl in Hrun. unfold compute_overheat_score in Hrun.
  destruct (zscores (fetch_metrics e sym) hs []) as [z|] eqn:Hz; [| done].
  simpl in Hrun. injection Hrun as <- <-.
  destruct (history_pass_spec cg_id (fetch_metrics e sym) _ _ _ _ Hnd Hpass)
    as (Hkeys & Hframe & _).
  split; [| exact Hframe].
  repeat split; simpl.
  intros k v Hin. destruct (Hkeys k v Hin) as (l & Hw & Hget & Hfile).
  exists l. split; [done |]. split; [| done].
  rewrite (zscores_get (fetch_metrics e sym) _ _ _ NoDup_METRICS Hz k).
  rewrite (dict_get_elem (fetch_metrics e sym) _ _ NoDup_METRICS Hin).
  unfold dict_get_default. by rewrite Hget.
Qed.

(** ** The loop over the assets *)

Lemma all_paths_cons (sym cg_id : string) (rest : dict string) :
  all_paths ((sym, cg_id) :: rest) = asset_paths cg_id ++ all_paths rest.
Proof. reflexivity. Qed.

Lemma asset_paths_elem (cg_id k : string) (v : R) (e : env) (sym : string) :
  (k, v) ∈ fetch_metrics e sym -> hist_path cg_id k ∈ asset_paths cg_id.
Proof.
  intros Hin. unfold asset_paths. apply list_elem_of_fmap_2.
  rewrite <- (metric_names e sym). by apply (list_elem_of_fmap_2 fst) in Hin.
Qed.

Lemma all_paths_elem (assets : dict string) (sym cg_id q : string) :
  (sym, cg_id) ∈ assets -> q ∈ asset_paths cg_id -> q ∈ all_paths assets.
Proof.
  induction assets as [|[s c] rest IH]; intros Hin Hq; [by apply elem_of_nil in Hin |].
  rewrite all_paths_cons. apply elem_of_app.
  apply elem_of_cons in Hin as [Heq | Hin]; [injection Heq as -> ->; by left |].
  right. by apply IH.
Qed.

Lemma asset_checked_before (e : env) (fs0 fs fs' : gmap string file)
    (sym cg_id : string) (r : check_record) :
  (forall q, q ∈ asset_paths cg_id -> fs !! q = fs0 !! q) ->
  asset_checked e fs fs' sym cg_id r -> asset_checked e fs0 fs' sym cg_id r.
Proof.
  intros Hsame (Ht & Hs & Hm & Hsc & Hkeys). repeat split; try done.
  intros k v Hin. destruct (Hkeys k v Hin) as (l & Hw & Hz & Hfile).
  pose proof (Hsame _ (asset_paths_elem cg_id k v e sym Hin)) as Heq.
  exists l. split; [| split; [| done]].
  - unfold window in *. by rewrite <- Heq.
  - rewrite Hz. f_equal. by apply load_hist_ext.
Qed.

Lemma asset_checked_after (e : env) (fs fs' fs'' : gmap string file)
    (sym cg_id : string) (r : check_record) :
  (forall q, q ∈ asset_paths cg_id -> fs'' !! q = fs' !! q) ->
  asset_checked e fs fs' sym cg_id r -> asset_checked e fs fs'' sym cg_id r.
Proof.
  intros Hsame (Ht & Hs & Hm & Hsc & Hkeys). repeat split; try done.
  intros k v Hin. destruct (Hkeys k v Hin) as (l & Hw & Hz & Hfile).
  exists l. split; [done |]. split; [done |].
  by rewrite (Hsame _ (asset_paths_elem cg_id k v e sym Hin)).
Qed.

Lemma check_assets_spec (cfg : config) (e : env) (assets : dict string) :
  forall (fs : gmap string file) (alerts : list (tag * check_record))
         (results : list check_record) alerts' results' fs',
    NoDup (all_paths assets) ->
    check_assets cfg e assets fs alerts results = Some (alerts', results', fs') ->
    exists new,
      results' = results ++ new /\
      alerts' = alerts ++ omap (alert_of cfg) new /\
      Forall2 (fun r a => asset_checked e fs fs' a.1 a.2 r) new assets /\
      (forall q, q ∉ all_paths assets -> fs' !! q = fs !! q).
Proof.
  induction assets as [|[sym cg_id] rest IH];
    intros fs alerts results alerts' results' fs' Hnd Hrun.
  - simpl in Hrun. simplify_eq. exists []. rewrite !app_nil_r.
    split; [done |]. split; [done |]. split; [constructor | done].
  - rewrite all_paths_cons in Hnd.
    apply NoDup_app in Hnd as (Hnd1 & Hdisj & Hnd2).
    simpl in Hrun.
    destruct (check_asset e fs sym cg_id) as [[r fs1]|] eqn:Hone; [| done].
    simpl in Hrun.
    destruct (check_asset_spec _ _ _ _ _ _ Hnd1 Hone) as [Hr Hframe1].
    destruct (IH _ _ _ _ _ _ Hnd2 Hrun) as (new & -> & -> & Hall & Hframe2).
    exists (r :: new). rewrite <- !app_assoc. simpl.
    split; [done |]. split; [| split].
    + unfold alert_of at 2.
      destruct (alert_tag cfg (rec_score r)); simpl; [| done].
      by rewrite <- app_assoc.
    + constructor.
      * simpl. apply (asset_checked_after _ _ fs1); [| done].
        intros q Hq. apply Hframe2. by apply Hdisj.
      * apply Forall2_same_length_lookup. split; [by eapply Forall2_length |].
        intros i r' [s c] Hi Ha.
        apply (asset_checked_before _ _ fs1);
          [| by eapply (Forall2_lookup_lr _ _ _ _ _ _ Hall)].
        intros q Hq. simpl in Hq. apply Hframe1. intros Hq1.
        apply (Hdisj q Hq1). apply (all_paths_elem rest s c); [| done].
        by apply list_elem_of_lookup_2 in Ha.
    + intros q Hq. rewrite all_paths_cons in Hq.
      apply not_elem_of_app in Hq as [Hq1 Hq2].
      rewrite (Hframe2 q Hq2). by apply Hframe1.
Qed.

Lemma NoDup_all_paths : NoDup (all_paths ASSETS).
Proof. compute_done. Qed.

Lemma last_run_not_history : path_join HIST_DIR "last_run.json" ∉ all_paths ASSETS.
Proof. compute_done. Qed.

Lemma single_check_spec (cfg : config)
    (detailed_body : string -> tag -> check_record -> string)
    (e : env) (fs fs' : gmap string file) (out : outcome) (sent : list delivery) :
  single_check cfg detailed_body e fs = Some (out, fs', sent) ->
  out_time out = now_utc_str e /\
  out_alerts out = omap (alert_of cfg) (out_results out) /\
  Forall2 (fun r a => asset_checked e fs fs' a.1 a.2 r) (out_results out) ASSETS /\
  sent = notify cfg detailed_body e (out_alerts out) /\
  (forall q, q ∉ all_paths ASSETS -> q <> path_join HIST_DIR "last_run.json" ->
     fs' !! q = fs !! q).
Proof.
  intros Hrun. unfold single_check in Hrun.
  destruct (check_assets cfg e ASSETS fs [] []) as [[[alerts results] fs1]|]
    eqn:Hloop; [| done].
  simpl in Hrun. injection Hrun as <- <- <-. simpl.
  destruct (check_assets_spec _ _ _ _ _ _ _ _ _ NoDup_all_paths Hloop)
    as (new & -> & -> & Hall & Hframe).
  simpl. split; [done |]. split; [done |]. split; [| split; [done |]].
  - apply Forall2_same_length_lookup. split; [by eapply Forall2_length |].
    intros i r [s c] Hi Ha.
    apply (asset_checked_after _ _ fs1);
      [| by eapply (Forall2_lookup_lr _ _ _ _ _ _ Hall)].
    intros q Hq. simpl in Hq. apply lookup_insert_ne. intros <-.
    apply last_run_not_history. apply (all_paths_elem ASSETS s c); [| done].
    by apply list_elem_of_lookup_2 in Ha.
  - intros q Hq Hne. rewrite lookup_insert_ne by done. by apply Hframe.
Qed.

(** *** Completion on well-typed history files *)

Lemma zscores_total (items : dict R) (hs : dict pyval) :
  forall z0,
    (forall k v, (k, v) ∈ items ->
       is_Some (compute_zscore v (dict_get_default hs k (PList [])))) ->
    is_Some (zscores items hs z0).
Proof.
  induction items as [|[k0 v0] rest IH]; intros z0 Hall; [by eexists |].
  simpl. destruct (Hall k0 v0) as [zk ->]; [left |]. simpl.
  apply IH. intros k v Hin. apply Hall. by right.
Qed.

Lemma load_hist_typed (fs : gmap string file) (asset metric : string)
    (xs : list R) :
  window fs (hist_path asset metric) = Some (PNum <$> xs) ->
  load_hist fs asset metric 90 = floats (lastn 90 xs).
Proof.
  intros Hw. rewrite (load_hist_window _ _ _ _ _ Hw).
  rewrite (slice_from_neg 90) by lia. unfold floats, lastn.
  by rewrite fmap_drop, length_fmap.
Qed.

Lemma check_asset_total (e : env) (fs : gmap string file) (sym cg_id : string) :
  NoDup (asset_paths cg_id) ->
  (forall q, q ∈ asset_paths cg_id ->
     exists xs : list R, window fs q = Some (PNum <$> xs)) ->
  is_Some (check_asset e fs sym cg_id).
Proof.
  intros Hnd Hty. unfold check_asset.
  destruct (history_pass_total cg_id (fetch_metrics e sym) fs [] Hnd)
    as [[hs fs1] Hpass].
  { intros k Hk. destruct (Hty (hist_path cg_id k)) as [xs ->]; [| by eexists].
    by apply list_elem_of_fmap_2. }
  rewrite Hpass. simpl. unfold compute_overheat_score.
  destruct (history_pass_spec cg_id (fetch_metrics e sym) _ _ _ _ Hnd Hpass)
    as (Hkeys & _ & _).
  destruct (zscores_total (fetch_metrics e sym) hs []) as [z ->]; [| by eexists].
  intros k v Hin. destruct (Hkeys k v Hin) as (l & Hw & Hget & _).
  unfold dict_get_default. rewrite Hget. simpl.
  destruct (Hty (hist_path cg_id k)) as [xs Hxs];
    [by eapply asset_paths_elem |].
  rewrite (load_hist_typed _ _ _ _ Hxs), compute_zscore_floats. by eexists.
Qed.

Lemma check_assets_total (cfg : config) (e : env) (assets : dict string) :
  forall (fs : gmap string file) alerts results,
    NoDup (all_paths assets) ->
    typed_store fs assets ->
    is_Some (check_assets cfg e assets fs alerts results).
Proof.
  induction assets as [|[sym cg_id] rest IH]; intros fs alerts results Hnd Hty;
    [by eexists |].
  rewrite all_paths_cons in Hnd.
  apply NoDup_app in Hnd as (Hnd1 & Hdisj & Hnd2).
  simpl.
  destruct (check_asset_total e fs sym cg_id Hnd1) as [[r fs1] Hone].
  { intros q Hq. apply Hty. rewrite all_paths_cons. apply elem_of_app. by left. }
  rewrite Hone. simpl. apply IH; [done |].
  destruct (check_asset_spec _ _ _ _ _ _ Hnd1 Hone) as [_ Hframe].
  intros q Hq. destruct (Hty q) as [xs Hxs].
  { rewrite all_paths_cons. apply elem_of_app. by right. }
  exists xs. unfold window in *. rewrite Hframe; [done |].
  intros Hq1. by apply (Hdisj q Hq1).
Qed.

Lemma single_check_total (cfg : config)
    (detailed_body : string -> tag -> check_record -> string)
    (e : env) (fs : gmap string file) :
  typed_store fs ASSETS ->
  is_Some (single_check cfg detailed_body e fs).
Proof.
  intros Hty. unfold single_check.
  destruct (check_assets_total cfg e ASSETS fs [] [] NoDup_all_paths Hty)
    as [[[alerts results] fs1] ->].
  by eexists.
Qed.

Lemma single_check_asset (cfg : config)
    (detailed_body : string -> tag -> check_record -> string)
    (e : env) (fs fs' : gmap string file) (out : outcome) (sent : list delivery)
    (sym cg_id : string) :
  single_check cfg detailed_body e fs = Some (out, fs', sent) ->
  (sym, cg_id) ∈ ASSETS ->
  exists r, r ∈ out_results out /\ asset_checked e fs fs' sym cg_id r.
Proof.
  intros Hrun Hin.
  destruct (single_check_spec _ _ _ _ _ _ _ Hrun) as (_ & _ & Hall & _).
  apply list_elem_of_lookup_1 in Hin as [i Hi].
  destruct (Forall2_lookup_r _ _ _ _ _ Hall Hi) as (r & Hr & Hok).
  exists r. split; [by eapply list_elem_of_lookup_2 | done].
Qed.

Lemma all_paths_inv (assets : dict string) (q : string) :
  q ∈ all_paths assets ->
  exists sym cg_id k,
    (sym, cg_id) ∈ assets /\ k ∈ METRICS /\ q = hist_path cg_id k.
Proof.
  induction assets as [|[s c] rest IH]; intros Hq; [by apply elem_of_nil in Hq |].
  rewrite all_paths_cons in Hq. apply elem_of_app in Hq as [Hq | Hq].
  - unfold asset_paths in Hq. apply list_elem_of_fmap in Hq as (k & -> & Hk).
    exists s, c, k. split; [left | done].
  - destruct (IH Hq) as (sym & cg & k & Hin & Hk & ->).
    exists sym, cg, k. split; [by right | done].
Qed.

Lemma metric_value (e : env) (sym k : string) :
  k ∈ METRICS -> exists v, (k, v) ∈ fetch_metrics e sym.
Proof.
  rewrite <- (metric_names e sym). intros Hk.
  apply list_elem_of_fmap in Hk as ([k' v] & -> & Hin). by exists v.
Qed.

Lemma single_check_keeps_typed (cfg : config)
    (detailed_body : string -> tag -> check_record -> string)
    (e : env) (fs fs' : gmap string file) (out : outcome) (sent : list delivery) :
  single_check cfg detailed_body e fs = Some (out, fs', sent) ->
  typed_store fs ASSETS -> typed_store fs' ASSETS.
Proof.
  intros Hrun Hty q Hq.
  destruct (all_paths_inv _ _ Hq) as (sym & cg & k & Hin & Hk & ->).
  destruct (single_check_asset _ _ _ _ _ _ _ _ _ Hrun Hin)
    as (r & _ & _ & _ & _ & _ & Hkeys).
  destruct (metric_value e sym k Hk) as [v Hv].
  destruct (Hkeys k v Hv) as (l & Hw & _ & Hfile).
  destruct (Hty _ Hq) as [xs Hxs]. rewrite Hxs in Hw. injection Hw as <-.
  exists (lastn 180 (xs ++ [v])). unfold window. rewrite Hfile.
  unfold lastn. by rewrite fmap_drop, fmap_app, !length_app, !length_fmap.
Qed.

(** ** Cold start *)

Lemma weighted_raw_zero (z : dict R) :
  (forall k, k ∈ METRICS -> dict_get z k = Some 0) -> weighted_raw z = 0.
Proof.
  intros Hz. unfold weighted_raw, dict_get_default.
  rewrite !Hz by compute_done. simpl. lra.
Qed.

Lemma normalize_score_zero : normalize_score 0 (-3) 3 = 50.
Proof. unfold normalize_score, Rmin. rle_cases; unfold Rmax; rle_cases; lra. Qed.

Lemma asset_checked_cold (e : env) (fs fs' : gmap string file)
    (sym cg_id : string) (r : check_record) :
  (forall q, q ∈ asset_paths cg_id -> window fs q = Some []) ->
  asset_checked e fs fs' sym cg_id r ->
  rec_score r = 50.
Proof.
  intros Hcold (_ & _ & _ & -> & Hkeys).
  rewrite weighted_raw_zero; [apply normalize_score_zero |].
  intros k Hk. destruct (metric_value e sym k Hk) as [v Hv].
  destruct (Hkeys k v Hv) as (l & Hw & -> & _).
  rewrite (load_hist_window _ _ _ _ _
             (Hcold _ (asset_paths_elem cg_id k v e sym Hv))).
  unfold slice_from. by rewrite drop_nil.
Qed.

Lemma alert_tag_neutral (cfg : config) :
  OVERHEAT_THRESHOLD cfg = 60 -> OVERSOLD_THRESHOLD cfg = 30 ->
  alert_tag cfg 50 = None.
Proof.
  intros H60 H30. unfold alert_tag. rewrite H60, H30.
  destruct (Rge_dec 50 60); [lra |]. destruct (Rle_dec 50 30); [lra | done].
Qed.

Lemma omap_none {A B : Type} (f : A -> option B) (l : list A) :
  Forall (fun x => f x = None) l -> omap f l = [].
Proof. induction 1 as [|x l Hx _ IH]; [done |]. simpl. by rewrite Hx. Qed.

Lemma fetch_metrics_offline (e : env) (sym k : string) (v : R) :
  (forall metric s, glassnode_try e metric s = None) ->
  (k, v) ∈ fetch_metrics e sym -> v = 0.
Proof.
  intros Hoff Hin.
  unfold fetch_metrics, fetch_etf_netflow, fetch_exchange_flow,
    fetch_funding_rate, fetch_oi_change_pct, fetch_whale_count,
    fetch_reserve_change_pct in Hin.
  rewrite !Hoff in Hin.
  repeat (apply elem_of_cons in Hin as [Heq | Hin]; [by injection Heq |]).
  by apply elem_of_nil in Hin.
Qed.

Lemma results_symbols (e : env) (fs fs' : gmap string file)
    (results : list check_record) (assets : dict string) :
  Forall2 (fun r a => asset_checked e fs fs' a.1 a.2 r) results assets ->
  rec_symbol <$> results = assets.*1.
Proof.
  induction 1 as [|r a results assets (_ & Hs & _) _ IH]; [done |].
  rewrite !fmap_cons. by rewrite Hs, IH.
Qed.

(** C7.  Cold start: when no provider answers (every metric is the default
    0) and every history is empty, the pass completes, each of the two
    records has all z-scores 0 and the score exactly 50, which with the
    thresholds 60 and 30 raises no alert; nothing is queued and nothing is
    sent. *)
Theorem cold_start_is_neutral (cfg : config)
    (detailed_body : string -> tag -> check_record -> string)
    (e : env) (fs : gmap string file) :
  OVERHEAT_THRESHOLD cfg = 60 ->
  OVERSOLD_THRESHOLD cfg = 30 ->
  (forall metric sym, glassnode_try e metric sym = None) ->
  (forall q, q ∈ all_paths ASSETS -> window fs q = Some []) ->
  exists out fs' sent,
    single_check cfg detailed_body e fs = Some (out, fs', sent) /\
    rec_symbol <$> out_results out = ["BTC"; "ETH"] /\
    Forall (fun r =>
              (forall k v, (k, v) ∈ rec_metrics r -> v = 0) /\
              (forall k, k ∈ METRICS -> dict_get (rec_z r) k = Some 0) /\
              rec_score r = 50 /\
              alert_tag cfg (rec_score r) = None)
           (out_results out) /\
    out_alerts out = [] /\
    sent = [].
Proof.
  intros H60 H30 Hoff Hcold.
  destruct (single_check_total cfg detailed_body e fs) as [[[out fs'] sent] Hrun].
  { intros q Hq. exists []. by apply Hcold. }
  exists out, fs', sent. split; [done |].
  destruct (single_check_spec _ _ _ _ _ _ _ Hrun)
    as (_ & Halerts & Hall & Hsent & _).
  assert (Hrec : Forall (fun r =>
              (forall k v, (k, v) ∈ rec_metrics r -> v = 0) /\
              (forall k, k ∈ METRICS -> dict_get (rec_z r) k = Some 0) /\
              rec_score r = 50 /\
              alert_tag cfg (rec_score r) = None) (out_results out)).
  { apply Forall_forall. intros r Hr.
    apply list_elem_of_lookup_1 in Hr as [i Hi].
    destruct (Forall2_lookup_l _ _ _ _ _ Hall Hi) as ([sym cg] & Ha & Hok).
    simpl in Hok. apply list_elem_of_lookup_2 in Ha.
    assert (Hc : forall q, q ∈ asset_paths cg -> window fs q = Some []).
    { intros q Hq. apply Hcold. by eapply all_paths_elem. }
    pose proof (asset_checked_cold _ _ _ _ _ _ Hc Hok) as Hscore.
    destruct Hok as (_ & _ & Hm & _ & Hkeys).
    split; [| split; [| split]].
    - intros k v Hin. rewrite Hm in Hin. by eapply fetch_metrics_offline.
    - intros k Hk. destruct (metric_value e sym k Hk) as [v Hv].
      destruct (Hkeys k v Hv) as (l & _ & -> & _).
      rewrite (load_hist_window _ _ _ _ _
                 (Hc _ (asset_paths_elem cg k v e sym Hv))).
      unfold slice_from. by rewrite drop_nil.
    - done.
    - rewrite Hscore. by apply alert_tag_neutral. }
  split; [by rewrite (results_symbols _ _ _ _ _ Hall) |].
  split; [done |].
  assert (Hnone : out_alerts out = []).
  { rewrite Halerts. apply omap_none. eapply Forall_impl; [exact Hrec |].
    intros r (_ & _ & _ & Ht). unfold alert_of. by rewrite Ht. }
  split; [done |]. by rewrite Hsent, Hnone.
Qed.

Lemma cold_start_is_neutral_witness :
  exists out fs' sent,
    single_check default_config (fun title _ _ => title) offline ∅
    = Some (out, fs', sent) /\
    Forall (fun r => rec_score r = 50) (out_results out) /\
    out_alerts out = [] /\
    sent = [].
Proof.
  destruct (cold_start_is_neutral default_config (fun title _ _ => title)
              offline ∅ eq_refl eq_refl)
    as (out & fs' & sent & Hrun & _ & Hrec & Hal & Hsent).
  - reflexivity.
  - intros q _. unfold window. by rewrite lookup_empty.
  - exists out, fs', sent. split; [exact Hrun |]. split; [| by split].
    eapply Forall_impl; [exact Hrec |]. by intros r (_ & _ & Hs & _).
Defined.

(** ** Two consecutive passes *)

(** C5.  In a pass, the z-score of a metric is computed against the history
    as it is loaded from the store the pass starts with, before the value of
    the pass is appended.  Over two consecutive passes observing [v1] then
    [v2] for one asset and metric, the window read for [v2] is the tail of
    what the first pass stored, whose newest entry is [v1]; [v2] joins the
    file only after it. *)
Theorem zscore_uses_history_before_append (cfg : config)
    (detailed_body : string -> tag -> check_record -> string)
    (e1 e2 : env) (fs0 fs1 fs2 : gmap string file) (out1 out2 : outcome)
    (sent1 sent2 : list delivery) (sym cg_id k : string) (v1 v2 : R) :
  single_check cfg detailed_body e1 fs0 = Some (out1, fs1, sent1) ->
  single_check cfg detailed_body e2 fs1 = Some (out2, fs2, sent2) ->
  (sym, cg_id) ∈ ASSETS ->
  (k, v1) ∈ fetch_metrics e1 sym ->
  (k, v2) ∈ fetch_metrics e2 sym ->
  exists r1 r2 stored,
    r1 ∈ out_results out1 /\ rec_symbol r1 = sym /\
    r2 ∈ out_results out2 /\ rec_symbol r2 = sym /\
    dict_get (rec_z r1) k = compute_zscore v1 (load_hist fs0 cg_id k 90) /\
    dict_get (rec_z r2) k = compute_zscore v2 (load_hist fs1 cg_id k 90) /\
    fs1 !! hist_path cg_id k = Some (Parsed (PList stored)) /\
    load_hist fs1 cg_id k 90 = PList (lastn 90 stored) /\
    last (lastn 90 stored) = Some (PNum v1) /\
    fs2 !! hist_path cg_id k
    = Some (Parsed (PList (lastn 180 (stored ++ [PNum v2])))).
Proof.
  intros Hrun1 Hrun2 Hin Hv1 Hv2.
  destruct (single_check_asset _ _ _ _ _ _ _ _ _ Hrun1 Hin)
    as (r1 & Hr1 & _ & Hs1 & _ & _ & Hkeys1).
  destruct (single_check_asset _ _ _ _ _ _ _ _ _ Hrun2 Hin)
    as (r2 & Hr2 & _ & Hs2 & _ & _ & Hkeys2).
  destruct (Hkeys1 k v1 Hv1) as (l0 & Hw0 & Hz1 & Hfile1).
  destruct (Hkeys2 k v2 Hv2) as (l1 & Hw1 & Hz2 & Hfile2).
  assert (l1 = lastn 180 (l0 ++ [PNum v1])) as ->.
  { unfold window in Hw1. rewrite Hfile1 in Hw1. by injection Hw1. }
  exists r1, r2, (lastn 180 (l0 ++ [PNum v1])).
  repeat (split; [done |]). split; [| split; [| done]].
  - rewrite (load_hist_window _ _ _ _ _ Hw1). by rewrite (slice_from_neg 90).
  - rewrite !lastn_last by lia. apply last_snoc.
Qed.

Lemma zscore_uses_history_before_append_witness :
  exists out1 fs1 sent1 out2 fs2 sent2 r2,
    single_check default_config (fun title _ _ => title) (feed 1) ∅
    = Some (out1, fs1, sent1) /\
    single_check default_config (fun title _ _ => title) (feed 2) fs1
    = Some (out2, fs2, sent2) /\
    r2 ∈ out_results out2 /\ rec_symbol r2 = "BTC" /\
    dict_get (rec_z r2) "funding_rate"
    = compute_zscore 2 (load_hist fs1 "bitcoin" "funding_rate" 90) /\
    load_hist fs1 "bitcoin" "funding_rate" 90 = PList [PNum 1].
Proof.
  assert (Hty0 : typed_store ∅ ASSETS).
  { intros q _. exists []. unfold window. by rewrite lookup_empty. }
  destruct (single_check_total default_config (fun title _ _ => title)
              (feed 1) ∅ Hty0) as [[[out1 fs1] sent1] Hrun1].
  pose proof (single_check_keeps_typed _ _ _ _ _ _ _ Hrun1 Hty0) as Hty1.
  destruct (single_check_total default_config (fun title _ _ => title)
              (feed 2) fs1 Hty1) as [[[out2 fs2] sent2] Hrun2].
  destruct (zscore_uses_history_before_append _ _ _ _ _ _ _ _ _ _ _
              "BTC" "bitcoin" "funding_rate" 1 2 Hrun1 Hrun2)
    as (r1 & r2 & stored & _ & _ & Hr2 & Hs2 & _ & Hz2 & Hfile & Hload & _).
  - left.
  - unfold fetch_metrics, fetch_funding_rate. simpl. do 3 right. left.
  - unfold fetch_metrics, fetch_funding_rate. simpl. do 3 right. left.
  - exists out1, fs1, sent1, out2, fs2, sent2, r2.
    repeat (split; [done |]).
    destruct (single_check_asset _ _ _ _ _ _ _ "BTC" "bitcoin" Hrun1)
      as (r & _ & _ & _ & _ & _ & Hkeys); [left |].
    destruct (Hkeys "funding_rate" 1) as (l & Hw & _ & Hf).
    { unfold fetch_metrics, fetch_funding_rate. simpl. do 3 right. left. }
    unfold window in Hw. rewrite lookup_empty in Hw. injection Hw as <-.
    rewrite Hf in Hfile. injection Hfile as <-. by rewrite Hload.
Defined.

(** ** At most one alert per asset *)

Lemma alert_symbols_sublist (cfg : config) (results : list check_record) :
  (rec_symbol ∘ snd) <$> omap (alert_of cfg) results
  `sublist_of` rec_symbol <$> results.
Proof.
  induction results as [|r results IH]; [done |].
  rewrite fmap_cons. simpl. unfold alert_of at 1.
  destruct (alert_tag cfg (rec_score r)); simpl.
  - by apply sublist_skip.
  - by apply sublist_cons.
Qed.

Lemma NoDup_fmap_eq {A B : Type} (f : A -> B) (l : list A) (x y : A) :
  NoDup (f <$> l) -> x ∈ l -> y ∈ l -> f x = f y -> x = y.
Proof.
  induction l as [|a l IH]; intros Hnd Hx Hy Heq; [by apply elem_of_nil in Hx |].
  rewrite fmap_cons in Hnd. apply NoDup_cons in Hnd as [Hfresh Hnd].
  apply elem_of_cons in Hx as [-> | Hx]; apply elem_of_cons in Hy as [-> | Hy].
  - done.
  - destruct Hfresh. rewrite Heq. by apply list_elem_of_fmap_2.
  - destruct Hfresh. rewrite <- Heq. by apply list_elem_of_fmap_2.
  - by apply IH.
Qed.

(** C10.  In a completed pass the queued alerts carry pairwise distinct
    asset symbols: each asset contributes at most one alert, there are no
    more alerts than assets, and no asset has both an OVERHEAT and an
    OVERSOLD alert. *)
Theorem at_most_one_alert_per_asset (cfg : config)
    (detailed_body : string -> tag -> check_record -> string)
    (e : env) (fs fs' : gmap string file) (out : outcome) (sent : list delivery) :
  single_check cfg detailed_body e fs = Some (out, fs', sent) ->
  NoDup ((rec_symbol ∘ snd) <$> out_alerts out) /\
  (length (out_alerts out) <= length ASSETS)%nat /\
  (forall r1 r2,
     (OVERHEAT, r1) ∈ out_alerts out -> (OVERSOLD, r2) ∈ out_alerts out ->
     rec_symbol r1 <> rec_symbol r2).
Proof.
  intros Hrun.
  destruct (single_check_spec _ _ _ _ _ _ _ Hrun) as (_ & Halerts & Hall & _).
  pose proof (alert_symbols_sublist cfg (out_results out)) as Hsub.
  rewrite <- Halerts, (results_symbols _ _ _ _ _ Hall) in Hsub.
  assert (Hnd : NoDup ((rec_symbol ∘ snd) <$> out_alerts out)).
  { apply (sublist_NoDup _ (ASSETS.*1)); [compute_done | exact Hsub]. }
  split; [done |]. split.
  - apply sublist_length in Hsub. by rewrite !length_fmap in Hsub.
  - intros r1 r2 H1 H2 Heq.
    by pose proof (NoDup_fmap_eq _ _ _ _ Hnd H1 H2 Heq).
Qed.

Lemma seeded_window (q : string) :
  q ∈ all_paths ASSETS -> window seeded q = Some (PNum <$> [1; 3]).
Proof.
  intros Hq.
  assert (Hfile : seeded !! q = Some (Parsed (floats [1; 3]))).
  { apply elem_of_list_to_map_1.
    - compute_done.
    - by apply (list_elem_of_fmap_2 (fun q => (q, Parsed (floats [1; 3])))). }
  unfold window. by rewrite Hfile.
Qed.

Lemma zscore_1_3 (v : R) : zscore v [1; 3] = v - 2.
Proof.
  unfold zscore. rewrite decide_False by (simpl; lia).
  rewrite pstdev_1_3, mean_1_3. destruct (Req_dec_T 1 0); lra.
Qed.

Lemma seeded_score (e : env) (fs' : gmap string file) (sym cg_id : string)
    (r : check_record) (x : R) :
  (sym, cg_id) ∈ ASSETS ->
  fetch_metrics e sym
  = [("etf_netflow", x); ("exchange_netflow", 0); ("oi_change_pct", 0);
     ("funding_rate", 0); ("whale_count", 0); ("reserve_change_pct", 0)] ->
  asset_checked e seeded fs' sym cg_id r ->
  rec_score r = normalize_score ((x - 2) * 0.30 - 0.6) (-3) 3.
Proof.
  intros Hin Hfm (_ & _ & _ & -> & Hkeys). f_equal.
  assert (Hz : forall k v, (k, v) ∈ fetch_metrics e sym ->
            dict_get (rec_z r) k = Some (v - 2)).
  { intros k v Hv. destruct (Hkeys k v Hv) as (l & _ & -> & _).
    rewrite (load_hist_typed _ _ _ [1; 3])
      by (apply seeded_window; eapply all_paths_elem;
          [done | by eapply asset_paths_elem]).
    change (lastn 90 [1; 3]) with [1; 3].
    by rewrite compute_zscore_floats, zscore_1_3. }
  rewrite Hfm in Hz. unfold weighted_raw, dict_get_default.
  rewrite (Hz "etf_netflow" x), (Hz "exchange_netflow" 0),
    (Hz "oi_change_pct" 0), (Hz "funding_rate" 0), (Hz "whale_count" 0),
    (Hz "reserve_change_pct" 0) by (repeat first [left | right]).
  simpl. lra.
Qed.

Lemma seeded_pass (btc eth : R) :
  exists out fs' sent r1 r2,
    single_check default_config (fun title _ _ => title) (etf_feed btc eth) seeded
    = Some (out, fs', sent) /\
    out_results out = [r1; r2] /\
    rec_symbol r1 = "BTC" /\ rec_symbol r2 = "ETH" /\
    rec_score r1 = normalize_score ((btc - 2) * 0.30 - 0.6) (-3) 3 /\
    rec_score r2 = normalize_score ((eth - 2) * 0.30 - 0.6) (-3) 3 /\
    out_alerts out = omap (alert_of default_config) [r1; r2].
Proof.
  destruct (single_check_total default_config (fun title _ _ => title)
              (etf_feed btc eth) seeded) as [[[out fs'] sent] Hrun].
  { intros q Hq. exists [1; 3]. by apply seeded_window. }
  destruct (single_check_spec _ _ _ _ _ _ _ Hrun) as (_ & Halerts & Hall & _).
  unfold ASSETS in Hall.
  apply Forall2_cons_inv_r in Hall as (r1 & rs & Hr1 & Hall & Hres).
  apply Forall2_cons_inv_r in Hall as (r2 & rs' & Hr2 & Hall & ->).
  apply Forall2_nil_inv_r in Hall as ->.
  exists out, fs', sent, r1, r2. rewrite Hres in Halerts.
  split; [exact Hrun |]. split; [exact Hres |].
  split; [apply Hr1 |]. split; [apply Hr2 |].
  split; [| split; [| exact Halerts]].
  - apply (seeded_score (etf_feed btc eth) fs' "BTC" "bitcoin");
      [left | reflexivity | exact Hr1].
  - apply (seeded_score (etf_feed btc eth) fs' "ETH" "ethereum");
      [right; left | reflexivity | exact Hr2].
Qed.

Lemma at_most_one_alert_per_asset_witness :
  exists out fs' sent r1 r2,
    single_check default_config (fun title _ _ => title) (etf_feed 12 (-8)) seeded
    = Some (out, fs', sent) /\
    out_alerts out = [(OVERHEAT, r1); (OVERSOLD, r2)] /\
    rec_symbol r1 = "BTC" /\ rec_symbol r2 = "ETH" /\
    NoDup ((rec_symbol ∘ snd) <$> out_alerts out) /\
    (length (out_alerts out) <= 2)%nat /\
    rec_symbol r1 <> rec_symbol r2.
Proof.
  destruct (seeded_pass 12 (-8))
    as (out & fs' & sent & r1 & r2 & Hrun & Hres & Hs1 & Hs2 & Hsc1 & Hsc2 & Hal).
  assert (Hv1 : normalize_score ((12 - 2) * 0.30 - 0.6) (-3) 3 = 90).
  { unfold normalize_score, Rmin. rle_cases; unfold Rmax; rle_cases; lra. }
  assert (Hv2 : normalize_score ((-8 - 2) * 0.30 - 0.6) (-3) 3 = 0).
  { unfold normalize_score, Rmin. rle_cases; unfold Rmax; rle_cases; lra. }
  assert (Hhot : alert_tag default_config (rec_score r1) = Some OVERHEAT).
  { rewrite Hsc1, Hv1. unfold alert_tag. simpl.
    destruct (Rge_dec 90 60); [done | lra]. }
  assert (Hcold : alert_tag default_config (rec_score r2) = Some OVERSOLD).
  { rewrite Hsc2, Hv2. unfold alert_tag. simpl.
    destruct (Rge_dec 0 60); [lra |]. destruct (Rle_dec 0 30); [done | lra]. }
  assert (Halerts : out_alerts out = [(OVERHEAT, r1); (OVERSOLD, r2)]).
  { rewrite Hal. simpl. unfold alert_of. by rewrite Hhot, Hcold. }
  destruct (at_most_one_alert_per_asset _ _ _ _ _ _ _ Hrun) as (Hnd & Hlen & Hdiff).
  exists out, fs', sent, r1, r2.
  split; [exact Hrun |]. split; [exact Halerts |].
  split; [exact Hs1 |]. split; [exact Hs2 |].
  split; [exact Hnd |]. split; [exact Hlen |].
  apply Hdiff; rewrite Halerts; [left | right; left].
Defined.

(** ** Dispatch *)

Lemma notify_length (cfg : config)
    (detailed_body : string -> tag -> check_record -> string)
    (e : env) (alerts : list (tag * check_record)) :
  length (notify cfg detailed_body e alerts) = (2 * length alerts)%nat.
Proof.
  induction alerts as [|[t r] rest IH]; [done |]. simpl. rewrite IH. lia.
Qed.

Lemma notify_lookup (cfg : config)
    (detailed_body : string -> tag -> check_record -> string)
    (e : env) (alerts : list (tag * check_record)) :
  forall i t r,
    alerts !! i = Some (t, r) ->
    let title := alert_title t (rec_symbol r) in
    let text := detailed_body title t r in
    notify cfg detailed_body e alerts !! (2 * i)%nat
    = Some {| via := Email; d_title := title; d_content := text;
              d_ok := send_email_gmail_shorttitle cfg e title text |} /\
    notify cfg detailed_body e alerts !! (2 * i + 1)%nat
    = Some {| via := ServerChan; d_title := title; d_content := fenced text;
              d_ok := send_serverchan cfg e title (fenced text) |}.
Proof.
  induction alerts as [|[t0 r0] rest IH]; intros i t r Hi; [done |].
  destruct i as [|i].
  - simpl in Hi. injection Hi as -> ->. by split.
  - simpl in Hi. destruct (IH i t r Hi) as [H1 H2].
    replace (2 * S i)%nat with (S (S (2 * i))) by lia. simpl.
    replace (i + (i + 0))%nat with (2 * i)%nat by lia.
    by split.
Qed.

Lemma check_assets_channels (cfg : config) (e : env)
    (smtp : string -> string -> bool) (post : string -> string -> option Z)
    (assets : dict string) :
  forall fs alerts results,
    check_assets cfg (with_channels e smtp post) assets fs alerts results
    = check_assets cfg e assets fs alerts results.
Proof.
  induction assets as [|[sym cg_id] rest IH]; intros fs alerts results; [done |].
  simpl. change (check_asset (with_channels e smtp post) fs sym cg_id)
    with (check_asset e fs sym cg_id).
  destruct (check_asset e fs sym cg_id) as [[r fs1]|]; [| done].
  simpl. apply IH.
Qed.

(** C9.  Every queued alert is handed to both channels, first to the mail
    function and then to ServerChan, with its own title and body, whatever
    the two functions return: the calls for the alert at position [i] are
    at positions [2i] and [2i+1] of the sequence of calls.  A completed
    pass makes exactly these calls, and what the channels answer changes
    neither the outcome of the pass nor the store it leaves. *)
Theorem every_alert_reaches_both_channels (cfg : config)
    (detailed_body : string -> tag -> check_record -> string)
    (e : env) (alerts : list (tag * check_record)) :
  length (notify cfg detailed_body e alerts) = (2 * length alerts)%nat /\
  (forall i t r,
     alerts !! i = Some (t, r) ->
     let title := alert_title t (rec_symbol r) in
     let text := detailed_body title t r in
     notify cfg detailed_body e alerts !! (2 * i)%nat
     = Some {| via := Email; d_title := title; d_content := text;
               d_ok := send_email_gmail_shorttitle cfg e title text |} /\
     notify cfg detailed_body e alerts !! (2 * i + 1)%nat
     = Some {| via := ServerChan; d_title := title; d_content := fenced text;
               d_ok := send_serverchan cfg e title (fenced text) |}) /\
  (forall fs out fs' sent,
     single_check cfg detailed_body e fs = Some (out, fs', sent) ->
     sent = notify cfg detailed_body e (out_alerts out)) /\
  (forall fs smtp post,
     (fun x => x.1) <$> single_check cfg detailed_body (with_channels e smtp post) fs
     = (fun x => x.1) <$> single_check cfg detailed_body e fs).
Proof.
  split; [apply notify_length |]. split; [apply notify_lookup |]. split.
  - intros fs out fs' sent Hrun.
    by destruct (single_check_spec _ _ _ _ _ _ _ Hrun) as (_ & _ & _ & -> & _).
  - intros fs smtp post. unfold single_check.
    rewrite check_assets_channels.
    by destruct (check_assets cfg e ASSETS fs [] []) as [[[alerts' results] fs1]|].
Qed.

Lemma every_alert_reaches_both_channels_witness :
  notify default_config (fun title _ _ => title) offline
    [(OVERHEAT, sample_record "BTC" 80); (OVERSOLD, sample_record "ETH" 10)]
    !! 0%nat
  = Some {| via := Email; d_title := alert_title OVERHEAT "BTC";
            d_content := alert_title OVERHEAT "BTC"; d_ok := false |} /\
  notify default_config (fun title _ _ => title) offline
    [(OVERHEAT, sample_record "BTC" 80); (OVERSOLD, sample_record "ETH" 10)]
    !! 2%nat
  = Some {| via := Email; d_title := alert_title OVERSOLD "ETH";
            d_content := alert_title OVERSOLD "ETH"; d_ok := false |} /\
  notify default_config (fun title _ _ => title) offline
    [(OVERHEAT, sample_record "BTC" 80); (OVERSOLD, sample_record "ETH" 10)]
    !! 3%nat
  = Some {| via := ServerChan; d_title := alert_title OVERSOLD "ETH";
            d_content := fenced (alert_title OVERSOLD "ETH"); d_ok := false |}.
Proof.
  pose proof (proj1 (proj2 (every_alert_reaches_both_channels default_config
    (fun title _ _ => title) offline
    [(OVERHEAT, sample_record "BTC" 80); (OVERSOLD, sample_record "ETH" 10)])))
    as Hcalls.
  split; [| split].
  - exact (proj1 (Hcalls 0%nat OVERHEAT (sample_record "BTC" 80) eq_refl)).
  - exact (proj1 (Hcalls 1%nat OVERSOLD (sample_record "ETH" 10) eq_refl)).
  - exact (proj2 (Hcalls 1%nat OVERSOLD (sample_record "ETH" 10) eq_refl)).
Defined.

(** ** Classification *)

Lemma alert_of_elem (cfg : config) (results : list check_record)
    (t : tag) (r : check_record) :
  (t, r) ∈ omap (alert_of cfg) results
  <-> r ∈ results /\ alert_tag cfg (rec_score r) = Some t.
Proof.
  rewrite list_elem_of_omap. unfold alert_of. split.
  - intros (r' & Hin & Heq).
    destruct (alert_tag cfg (rec_score r')) as [t'|] eqn:Ht; [| done].
    simpl in Heq. injection Heq as -> ->. by split.
  - intros [Hin Ht]. exists r. split; [done |]. by rewrite Ht.
Qed.

Ltac tag_cases :=
  repeat match goal with
         | |- context [Rge_dec ?a ?b] => destruct (Rge_dec a b)
         | |- context [Rle_dec ?a ?b] => destruct (Rle_dec a b)
         end.

(** C4.  Whatever the score and the two thresholds, the alert follows the
    order of the tests: OVERHEAT when [score >= OVERHEAT_THRESHOLD],
    otherwise OVERSOLD when [score <= OVERSOLD_THRESHOLD], otherwise none
    (Normal); when the thresholds overlap, a score meeting both tests is
    OVERHEAT.  With 60 and 30: 60 is OVERHEAT, 30 is OVERSOLD and 45 raises
    nothing.  The alerts queued by a pass are exactly those this rule gives
    for the scores of its records. *)
Theorem alert_tag_priority (cfg : config) (score : R) :
  (score >= OVERHEAT_THRESHOLD cfg -> alert_tag cfg score = Some OVERHEAT) /\
  (~ score >= OVERHEAT_THRESHOLD cfg -> score <= OVERSOLD_THRESHOLD cfg ->
     alert_tag cfg score = Some OVERSOLD) /\
  (~ score >= OVERHEAT_THRESHOLD cfg -> ~ score <= OVERSOLD_THRESHOLD cfg ->
     alert_tag cfg score = None) /\
  (OVERHEAT_THRESHOLD cfg <= OVERSOLD_THRESHOLD cfg ->
     score >= OVERHEAT_THRESHOLD cfg -> score <= OVERSOLD_THRESHOLD cfg ->
     alert_tag cfg score = Some OVERHEAT) /\
  (OVERHEAT_THRESHOLD cfg = 60 -> OVERSOLD_THRESHOLD cfg = 30 ->
     alert_tag cfg 60 = Some OVERHEAT /\ alert_tag cfg 30 = Some OVERSOLD
     /\ alert_tag cfg 45 = None) /\
  (forall detailed_body e fs out fs' sent t r,
     single_check cfg detailed_body e fs = Some (out, fs', sent) ->
     (t, r) ∈ out_alerts out
     <-> r ∈ out_results out /\ alert_tag cfg (rec_score r) = Some t).
Proof.
  split; [| split; [| split; [| split; [| split]]]].
  - unfold alert_tag. intros. tag_cases; done.
  - unfold alert_tag. intros. tag_cases; done.
  - unfold alert_tag. intros. tag_cases; done.
  - unfold alert_tag. intros. tag_cases; done.
  - unfold alert_tag. intros -> ->. repeat split; tag_cases; try done; lra.
  - intros body e fs out fs' sent t r Hrun.
    destruct (single_check_spec _ _ _ _ _ _ _ Hrun) as (_ & -> & _).
    apply alert_of_elem.
Qed.

Lemma alert_tag_priority_witness :
  alert_tag default_config 60 = Some OVERHEAT /\
  alert_tag default_config 30 = Some OVERSOLD /\
  alert_tag default_config 45 = None /\
  alert_tag default_config 75 = Some OVERHEAT.
Proof.
  destruct (proj1 (proj2 (proj2 (proj2 (proj2 (alert_tag_priority default_config 0)))))
              eq_refl eq_refl) as (H60 & H30 & H45).
  repeat split; [exact H60 | exact H30 | exact H45 |].
  apply (proj1 (alert_tag_priority default_config 75)). simpl. lra.
Defined.

(** * Further properties of the code *)

(** ** The z-score as a function of the value *)

Lemma zscore_mono (v v' : R) (hist : list R) :
  v <= v' -> zscore v hist <= zscore v' hist.
Proof.
  intros Hle. unfold zscore.
  destruct (decide (length hist < 2)%nat); [lra |].
  destruct (Req_dec_T (pstdev hist) 0) as [|Hnz]; [lra |].
  assert (0 <= pstdev hist) by apply sqrt_pos.
  assert (0 < / pstdev hist) by (apply Rinv_0_lt_compat; lra).
  unfold Rdiv. nra.
Qed.

Lemma zscore_sign (v : R) (hist : list R) :
  (mean hist <= v -> 0 <= zscore v hist) /\
  (v <= mean hist -> zscore v hist <= 0).
Proof.
  unfold zscore.
  destruct (decide (length hist < 2)%nat); [lra |].
  destruct (Req_dec_T (pstdev hist) 0) as [|Hnz]; [lra |].
  assert (0 <= pstdev hist) by apply sqrt_pos.
  assert (0 < / pstdev hist) by (apply Rinv_0_lt_compat; lra).
  unfold Rdiv. split; intros; nra.
Qed.

(** X3.  Against any history of floats the z-score never decreases when
    the value grows, it is not negative for a value at or above the mean of
    the history and not positive for a value at or below it. *)
Theorem compute_zscore_monotone (hist : list R) (v1 v2 : R) :
  v1 <= v2 ->
  exists z1 z2,
    compute_zscore v1 (floats hist) = Some z1 /\
    compute_zscore v2 (floats hist) = Some z2 /\
    z1 <= z2 /\
    (mean hist <= v1 -> 0 <= z1) /\
    (v2 <= mean hist -> z2 <= 0).
Proof.
  intros Hle. exists (zscore v1 hist), (zscore v2 hist).
  rewrite !compute_zscore_floats.
  split; [done |]. split; [done |]. split; [by apply zscore_mono |].
  split; [apply zscore_sign | apply zscore_sign].
Qed.

Lemma compute_zscore_monotone_witness :
  exists z1 z2,
    compute_zscore 2 (floats [1; 3]) = Some z1 /\
    compute_zscore 5 (floats [1; 3]) = Some z2 /\
    z1 <= z2 /\ 0 <= z1.
Proof.
  destruct (compute_zscore_monotone [1; 3] 2 5) as (z1 & z2 & H1 & H2 & Hle & Hpos & _);
    [lra |].
  exists z1, z2. split; [exact H1 |]. split; [exact H2 |]. split; [exact Hle |].
  apply Hpos. rewrite mean_1_3. lra.
Defined.

(** ** The weights *)



(** ** The composite score *)

Lemma dict_set_fresh {V : Type} (d : dict V) (k : string) (v : V) :
  k ∉ d.*1 -> dict_set d k v = d ++ [(k, v)].
Proof.
  induction d as [|[k0 v0] d IH]; intros Hk; [done |].
  rewrite fmap_cons in Hk. apply not_elem_of_cons in Hk as [Hne Hk].
  simpl in *. destruct (String.eqb_spec k0 k); [congruence |].
  by rewrite IH.
Qed.

Lemma zscores_keys (items : dict R) (hs : dict pyval) :
  forall z0 z,
    NoDup items.*1 ->
    (forall k, k ∈ items.*1 -> k ∉ z0.*1) ->
    zscores items hs z0 = Some z ->
    z.*1 = z0.*1 ++ items.*1.
Proof.
  induction items as [|[k0 v0] rest IH]; intros z0 z Hnd Hdisj Hz.
  - simpl in Hz. injection Hz as ->. by rewrite app_nil_r.
  - rewrite fmap_cons in Hnd. apply NoDup_cons in Hnd as [Hfresh Hnd].
    simpl in Hfresh, Hz.
    destruct (compute_zscore v0 _) as [zk|]; [| done]. simpl in Hz.
    assert (Hk0 : k0 ∉ z0.*1) by (apply Hdisj; rewrite fmap_cons; left).
    rewrite dict_set_fresh in Hz by done.
    rewrite (IH (z0 ++ [(k0, zk)]) z Hnd); [| | done].
    + rewrite fmap_app, fmap_cons, <- app_assoc. done.
    + intros k Hk. rewrite fmap_app. apply not_elem_of_app. split.
      * apply Hdisj. rewrite fmap_cons. by right.
      * simpl. intros ->%list_elem_of_singleton. done.
Qed.

Lemma zscores_fails (items : dict R) (hs : dict pyval) (k : string) (v : R) :
  forall z0,
    (k, v) ∈ items ->
    compute_zscore v (dict_get_default hs k (PList [])) = None ->
    zscores items hs z0 = None.
Proof.
  induction items as [|[k0 v0] rest IH]; intros z0 Hin Hbad;
    [by apply elem_of_nil in Hin |].
  simpl. apply elem_of_cons in Hin as [Heq | Hin].
  - injection Heq as <- <-. by rewrite Hbad.
  - destruct (compute_zscore v0 _); [simpl; by apply IH | done].
Qed.

Lemma zscores_none (items : dict R) (hs : dict pyval) :
  forall z0,
    zscores items hs z0 = None ->
    exists k v, (k, v) ∈ items /\
      compute_zscore v (dict_get_default hs k (PList [])) = None.
Proof.
  induction items as [|[k0 v0] rest IH]; intros z0 Hz; [done |].
  simpl in Hz.
  destruct (compute_zscore v0 (dict_get_default hs k0 (PList []))) as [zk|] eqn:E.
  - simpl in Hz. destruct (IH _ Hz) as (k & v & Hin & Hbad).
    exists k, v. split; [by right | done].
  - exists k0, v0. split; [left | done].
Qed.

(** X7.  [compute_overheat_score] raises exactly when the z-score of one
    of the metrics of the snapshot raises.  When it returns, the score is
    the normalised aggregate of the returned z-scores, and the dictionary
    of z-scores has the keys of the snapshot, in the same order, each with
    the z-score of its metric. *)
Theorem compute_overheat_score_result (metrics : dict R) (hist_stats : dict pyval) :
  NoDup metrics.*1 ->
  (compute_overheat_score metrics hist_stats = None
   <-> exists k v, (k, v) ∈ metrics /\
         compute_zscore v (dict_get_default hist_stats k (PList [])) = None) /\
  (forall score z,
     compute_overheat_score metrics hist_stats = Some (score, z) ->
     score = normalize_score (weighted_raw z) (-3) 3 /\
     z.*1 = metrics.*1 /\
     forall k v, (k, v) ∈ metrics ->
       dict_get z k
       = compute_zscore v (dict_get_default hist_stats k (PList []))).
Proof.
  intros Hnd. unfold compute_overheat_score. split.
  - split.
    + destruct (zscores metrics hist_stats []) as [z|] eqn:Hz; [done |].
      intros _. by apply (zscores_none _ _ []).
    + intros (k & v & Hin & Hbad). by rewrite (zscores_fails _ _ k v).
  - intros score z Hrun.
    destruct (zscores metrics hist_stats []) as [z'|] eqn:Hz; [| done].
    simpl in Hrun. injection Hrun as <- <-. split; [done | split].
    + by rewrite (zscores_keys _ _ [] _ Hnd) by (done || by intros k _ ?%elem_of_nil).
    + intros k v Hin. rewrite (zscores_get _ _ _ _ Hnd Hz k).
      by rewrite (dict_get_elem _ _ _ Hnd Hin).
Qed.

Lemma compute_overheat_score_result_witness :
  compute_overheat_score [("etf_netflow", 1)]
    [("etf_netflow", PList [PNum 1; PStr "x"])] = None /\
  exists z,
    compute_overheat_score [("etf_netflow", 1)] [("etf_netflow", PStr "é")]
    = Some (normalize_score (weighted_raw z) (-3) 3, z) /\
    z.*1 = ["etf_netflow"].
Proof.
  split.
  - apply (proj1 (compute_overheat_score_result [("etf_netflow", 1)]
                    [("etf_netflow", PList [PNum 1; PStr "x"])]
                    ltac:(compute_done))).
    exists "etf_netflow", 1. split; [left | reflexivity].
  - assert (Hrun : compute_overheat_score [("etf_netflow", 1)]
                     [("etf_netflow", PStr "é")]
                   = Some (normalize_score (weighted_raw [("etf_netflow", 0)]) (-3) 3,
                           [("etf_netflow", 0)])) by reflexivity.
    destruct (proj2 (compute_overheat_score_result [("etf_netflow", 1)]
                       [("etf_netflow", PStr "é")] ltac:(compute_done))
                _ _ Hrun) as (Hscore & Hkeys & _).
    exists [("etf_netflow", 0)]. split; [exact Hrun | exact Hkeys].
Defined.

(** ** File names of the history store *)

Lemma string_app_cons (c : ascii) (a b : string) :
  String c a +:+ b = String c (a +:+ b).
Proof. reflexivity. Qed.

Lemma string_app_assoc (a b c : string) : (a +:+ b) +:+ c = a +:+ (b +:+ c).
Proof.
  induction a as [|x a IH]; [reflexivity |].
  rewrite !string_app_cons. by rewrite IH.
Qed.

Lemma string_app_length (a b : string) :
  String.length (a +:+ b) = (String.length a + String.length b)%nat.
Proof.
  induction a as [|x a IH]; [reflexivity |].
  rewrite string_app_cons. simpl. by rewrite IH.
Qed.

Lemma string_app_inv_tail (a b s : string) : a +:+ s = b +:+ s -> a = b.
Proof.
  revert b. induction a as [|x a IH]; intros [|y b] Heq; [done | | |].
  - apply (f_equal String.length) in Heq.
    rewrite !string_app_length in Heq. simpl in Heq. lia.
  - apply (f_equal String.length) in Heq.
    rewrite !string_app_length in Heq. simpl in Heq. lia.
  - rewrite !string_app_cons in Heq. injection Heq as -> Heq.
    f_equal. by apply IH.
Qed.

Lemma path_join_inj (dir n1 n2 : string) (c : ascii) (r1 r2 : string) :
  n1 = String c r1 -> n2 = String c r2 ->
  path_join dir n1 = path_join dir n2 -> n1 = n2.
Proof.
  intros -> -> Heq. unfold path_join in Heq.
  destruct (decide (c = "/"%char)) as [-> | Hne]; [done |].
  assert (Hbr : forall r, match String c r with
                          | String "/"%char _ => String c r
                          | _ => dir +:+ "/" +:+ String c r
                          end = dir +:+ "/" +:+ String c r).
  { intros r. destruct c as [[] [] [] [] [] [] [] []]; try done. }
  rewrite !Hbr in Heq. by do 2 apply String.app_inj in Heq.
Qed.

Lemma hist_name_head (asset rest : string) :
  exists c r, asset +:+ "__" +:+ rest = String c r /\
              forall rest', exists r', asset +:+ "__" +:+ rest' = String c r'.
Proof.
  destruct asset as [|c a].
  - exists "_"%char, ("_" +:+ rest). split; [reflexivity |].
    intros rest'. by exists ("_" +:+ rest').
  - exists c, (a +:+ "__" +:+ rest). split; [reflexivity |].
    intros rest'. by exists (a +:+ "__" +:+ rest').
Qed.

Lemma hist_path_inj (asset asset' metric metric' : string) :
  (hist_path asset metric = hist_path asset metric' -> metric = metric') /\
  (hist_path asset metric = hist_path asset' metric -> asset = asset').
Proof.
  split.
  - intros Heq. unfold hist_path in Heq.
    destruct (hist_name_head asset (metric +:+ ".json")) as (c & r & Hn & Hall).
    destruct (Hall (metric' +:+ ".json")) as [r' Hn'].
    pose proof (path_join_inj _ _ _ _ _ _ Hn Hn' Heq) as Hnames.
    do 2 apply String.app_inj in Hnames.
    by apply string_app_inv_tail in Hnames.
  - intros Heq. unfold hist_path in Heq.
    apply (string_app_inv_tail _ _ ("__" +:+ metric +:+ ".json")).
    set (s := "__" +:+ metric +:+ ".json") in *.
    assert (Hs : exists r, s = String "_" r) by by eexists.
    destruct Hs as [rs Hs].
    assert (Hhead : forall a, exists c r, a +:+ s = String c r /\
              (path_join HIST_DIR (a +:+ s) = a +:+ s /\ c = "/"%char \/
               path_join HIST_DIR (a +:+ s) = HIST_DIR +:+ "/" +:+ a +:+ s
               /\ c <> "/"%char)).
    { intros [|c a].
      - exists "_"%char, rs. split; [by rewrite <- Hs |]. right.
        split; [| done]. change ("" +:+ s) with s. by rewrite Hs.
      - exists c, (a +:+ s). split; [reflexivity |].
        rewrite string_app_cons. unfold path_join.
        destruct (decide (c = "/"%char)) as [-> | Hne]; [by left |].
        right. split; [| done].
        destruct c as [[] [] [] [] [] [] [] []]; try done. }
    destruct (Hhead asset) as (c & r & Hn & [[Hp Hc] | [Hp Hc]]);
      destruct (Hhead asset') as (c' & r' & Hn' & [[Hp' Hc'] | [Hp' Hc']]);
      rewrite Hp, Hp' in Heq.
    + done.
    + rewrite Hn in Heq. subst c. discriminate Heq.
    + rewrite Hn' in Heq. subst c'. discriminate Heq.
    + by do 2 apply String.app_inj in Heq.
Qed.

Lemma append_hist_frame (fs fs' : gmap string file) (asset metric : string)
    (value : pyval) (q : string) :
  append_hist fs asset metric value = Some fs' ->
  q <> hist_path asset metric -> fs' !! q = fs !! q.
Proof.
  rewrite append_hist_window. intros Happ Hq.
  destruct (window fs (hist_path asset metric)) as [l|]; [| done].
  simpl in Happ. injection Happ as <-. by rewrite lookup_insert_ne.
Qed.

Lemma has_slash_app (a b : string) :
  has_slash (a +:+ b) = has_slash a || has_slash b.
Proof.
  induction a as [|c a IH]; [reflexivity |].
  rewrite string_app_cons. simpl. by rewrite IH, orb_assoc.
Qed.

Lemma path_join_plain (dir name : string) :
  has_slash name = false -> path_join dir name = dir +:+ "/" +:+ name.
Proof.
  destruct name as [|c name]; [done |]. simpl. intros Hc.
  apply orb_false_elim in Hc as [Hc _]. unfold path_join.
  destruct c as [[] [] [] [] [] [] [] []]; done.
Qed.

Lemma hist_name_plain (asset metric : string) :
  has_slash asset = false -> has_slash metric = false ->
  has_slash (hist_name asset metric) = false.
Proof.
  intros Ha Hm. unfold hist_name. rewrite !has_slash_app, Ha, Hm. reflexivity.
Qed.

(** X8.  For asset and metric names without [/], the history file of a
    key is an entry of the cache directory itself, named
    [asset__metric.json] with no [/] in it; two keys that differ in the
    metric only, or in the asset only, have different entry names; and
    appending a value for one metric leaves what is loaded for any other
    metric of the same asset unchanged. *)
Theorem hist_path_injective (asset asset' metric metric' : string) :
  has_slash asset = false -> has_slash asset' = false ->
  has_slash metric = false -> has_slash metric' = false ->
  (forall a m, a ∈ [asset; asset'] -> m ∈ [metric; metric'] ->
     hist_path a m = HIST_DIR +:+ "/" +:+ hist_name a m /\
     has_slash (hist_name a m) = false) /\
  (metric <> metric' -> hist_name asset metric <> hist_name asset metric') /\
  (asset <> asset' -> hist_name asset metric <> hist_name asset' metric) /\
  (metric <> metric' ->
   forall fs value fs' days,
     append_hist fs asset metric value = Some fs' ->
     load_hist fs' asset metric' days = load_hist fs asset metric' days).
Proof.
  intros Ha Ha' Hm Hm'. split; [| split; [| split]].
  - intros a m Hin_a Hin_m.
    assert (Hplain : has_slash (hist_name a m) = false).
    { apply hist_name_plain.
      - repeat (apply elem_of_cons in Hin_a as [-> | Hin_a]; [done |]).
        by apply elem_of_nil in Hin_a.
      - repeat (apply elem_of_cons in Hin_m as [-> | Hin_m]; [done |]).
        by apply elem_of_nil in Hin_m. }
    split; [by apply path_join_plain | done].
  - intros Hne Heq. apply Hne. unfold hist_name in Heq.
    do 2 apply String.app_inj in Heq.
    by apply string_app_inv_tail in Heq.
  - intros Hne Heq. apply Hne. unfold hist_name in Heq.
    by apply string_app_inv_tail in Heq.
  - intros Hne fs value fs' days Happ. apply load_hist_ext.
    apply (append_hist_frame _ _ _ _ _ _ Happ).
    intros Heq. by apply Hne, eq_sym, (hist_path_inj asset asset').
Qed.

Lemma hist_path_injective_witness :
  hist_path "bitcoin" "funding_rate"
  = ".hist_cache_overheat/bitcoin__funding_rate.json" /\
  hist_name "bitcoin" "funding_rate" <> hist_name "bitcoin" "whale_count" /\
  hist_name "bitcoin" "funding_rate" <> hist_name "ethereum" "funding_rate".
Proof.
  destruct (hist_path_injective "bitcoin" "ethereum" "funding_rate" "whale_count")
    as (Hpath & Hmetric & _); [reflexivity .. |].
  destruct (hist_path_injective "bitcoin" "ethereum" "funding_rate" "funding_rate")
    as (_ & _ & Hasset & _); [reflexivity .. |].
  split; [| split; [by apply Hmetric | by apply Hasset]].
  apply (Hpath "bitcoin" "funding_rate"); left.
Defined.

(** X9.  The file name only concatenates asset, separator and metric, so
    keys are not isolated when a name contains the separator: the keys
    [(a__x, m)] and [(a, x__m)] differ but share one file, and a value
    appended under the first is the newest entry loaded under the
    second. *)
Theorem hist_path_separator_alias (a x m : string) :
  (a +:+ "__" +:+ x, m) <> (a, x +:+ "__" +:+ m) /\
  hist_path (a +:+ "__" +:+ x) m = hist_path a (x +:+ "__" +:+ m) /\
  (forall fs value fs',
     append_hist fs (a +:+ "__" +:+ x) m value = Some fs' ->
     exists h,
       load_hist fs' a (x +:+ "__" +:+ m) 90 = PList h /\
       last h = Some value).
Proof.
  assert (Hpath : hist_path (a +:+ "__" +:+ x) m
                  = hist_path a (x +:+ "__" +:+ m)).
  { unfold hist_path. f_equal. by rewrite !string_app_assoc. }
  split; [| split; [done |]].
  - intros Heq. injection Heq as Heq _.
    apply (f_equal String.length) in Heq.
    rewrite !string_app_length in Heq. simpl in Heq. lia.
  - intros fs value fs' Happ. rewrite append_hist_window in Happ.
    destruct (window fs (hist_path (a +:+ "__" +:+ x) m)) as [l|] eqn:Hw;
      [| done].
    simpl in Happ. injection Happ as <-.
    exists (lastn 90 (lastn 180 (l ++ [value]))). split.
    + erewrite load_hist_window
        by (rewrite <- Hpath, window_insert; by rewrite decide_True).
      by rewrite (slice_from_neg 90).
    + rewrite !lastn_last by lia. apply last_snoc.
Qed.

Lemma hist_path_separator_alias_witness :
  hist_path "bit__coin" "rate" = hist_path "bit" "coin__rate" /\
  exists h,
    load_hist {[hist_path "bit__coin" "rate" := Parsed (PList [PNum 1])]}
      "bit" "coin__rate" 90 = PList h /\
    last h = Some (PNum 1).
Proof.
  destruct (hist_path_separator_alias "bit" "coin" "rate") as (_ & Hp & Hload).
  split; [exact Hp |].
  apply (Hload ∅ (PNum 1)).
  rewrite append_hist_window. unfold window. rewrite lookup_empty. simpl.
  by rewrite insert_empty.
Defined.

(** ** Appending and loading *)

Lemma slice_from_nonneg {A : Type} (s : Z) (l : list A) :
  (0 <= s)%Z -> slice_from s l = drop (Z.to_nat s) l.
Proof.
  intros Hs. unfold slice_from.
  destruct (Z.ltb_spec s 0); [lia |].
  destruct (decide (s <= Z.of_nat (length l))%Z).
  - by rewrite Z.min_l.
  - rewrite Z.min_r by lia. rewrite Nat2Z.id.
    by rewrite !drop_ge by lia.
Qed.



(** X11.  What [load_hist] returns for a stored list and a lookback
    [days]: for [days >= 1] the last [days] entries (the whole list when it
    is shorter); for [days = 0] the whole list; for a negative [days] the
    list without its first [-days] entries. *)
Theorem load_hist_lookback (fs : gmap string file) (asset metric : string)
    (l : list pyval) (days : Z) :
  fs !! hist_path asset metric = Some (Parsed (PList l)) ->
  ((1 <= days)%Z ->
     load_hist fs asset metric days = PList (lastn (Z.to_nat days) l) /\
     length (lastn (Z.to_nat days) l) = (length l `min` Z.to_nat days)%nat) /\
  (days = 0%Z -> load_hist fs asset metric days = PList l) /\
  ((days < 0)%Z ->
     load_hist fs asset metric days = PList (drop (Z.to_nat (- days)) l)).
Proof.
  intros Hfile.
  assert (Hw : window fs (hist_path asset metric) = Some l)
    by (unfold window; by rewrite Hfile).
  rewrite (load_hist_window _ _ _ _ _ Hw). split; [| split].
  - intros Hd. rewrite slice_from_neg by lia. by rewrite lastn_length.
  - intros ->. by rewrite slice_from_zero.
  - intros Hd. by rewrite slice_from_nonneg by lia.
Qed.

Lemma load_hist_lookback_witness :
  load_hist {[hist_path "bitcoin" "funding_rate"
              := Parsed (PList [PNum 1; PNum 2; PNum 3])]}
    "bitcoin" "funding_rate" (-1) = PList [PNum 2; PNum 3] /\
  load_hist {[hist_path "bitcoin" "funding_rate"
              := Parsed (PList [PNum 1; PNum 2; PNum 3])]}
    "bitcoin" "funding_rate" 2 = PList [PNum 2; PNum 3].
Proof.
  pose proof (load_hist_lookback
    {[hist_path "bitcoin" "funding_rate" := Parsed (PList [PNum 1; PNum 2; PNum 3])]}
    "bitcoin" "funding_rate" [PNum 1; PNum 2; PNum 3]) as H.
  split.
  - apply (proj2 (proj2 (H (-1)%Z (lookup_singleton_eq _ _)))). lia.
  - apply (proj1 (H 2%Z (lookup_singleton_eq _ _))). lia.
Defined.

(** ** When a pass completes *)

Lemma load_hist_lastn (fs : gmap string file) (asset metric : string)
    (l : list pyval) :
  window fs (hist_path asset metric) = Some l ->
  load_hist fs asset metric 90 = PList (lastn 90 l).
Proof.
  intros Hw. rewrite (load_hist_window _ _ _ _ _ Hw).
  by rewrite (slice_from_neg 90).
Qed.

Lemma history_pass_fails (cg_id : string) (items : dict R) (k : string) :
  forall (fs : gmap string file) (hs : dict pyval),
    NoDup (hist_path cg_id <$> items.*1) ->
    k ∈ items.*1 ->
    window fs (hist_path cg_id k) = None ->
    history_pass cg_id items fs hs = None.
Proof.
  induction items as [|[k0 v0] rest IH]; intros fs hs Hnd Hk Hw;
    [by apply elem_of_nil in Hk |].
  rewrite !fmap_cons in Hnd. apply NoDup_cons in Hnd as [Hfresh Hnd].
  simpl in Hfresh. rewrite fmap_cons in Hk. simpl in Hk. simpl.
  rewrite append_hist_window.
  apply elem_of_cons in Hk as [-> | Hk]; [by rewrite Hw |].
  destruct (window fs (hist_path cg_id k0)) as [l0|]; [| done]. simpl.
  apply IH; [done | done |].
  rewrite window_insert, decide_False; [done |].
  intros Heq. apply Hfresh. rewrite Heq. by apply list_elem_of_fmap_2.
Qed.

Lemma check_asset_fails (e : env) (fs : gmap string file)
    (sym cg_id k : string) (v : R) :
  NoDup (asset_paths cg_id) ->
  (k, v) ∈ fetch_metrics e sym ->
  window fs (hist_path cg_id k) = None
  \/ compute_zscore v (load_hist fs cg_id k 90) = None ->
  check_asset e fs sym cg_id = None.
Proof.
  intros Hnd Hin Hbad. unfold check_asset.
  destruct (history_pass cg_id (fetch_metrics e sym) fs [])
    as [[hs fs1]|] eqn:Hpass; [| done].
  simpl.
  destruct (history_pass_spec cg_id (fetch_metrics e sym) _ _ _ _ Hnd Hpass)
    as (Hkeys & _ & _).
  destruct (Hkeys k v Hin) as (l & Hw & Hget & _).
  destruct Hbad as [Hnone | Hz]; [congruence |].
  unfold compute_overheat_score.
  rewrite (zscores_fails _ _ k v); [done | done |].
  unfold dict_get_default. by rewrite Hget.
Qed.

Lemma check_assets_fails (cfg : config) (e : env) (assets : dict string)
    (sym cg_id k : string) (v : R) :
  forall (fs : gmap string file) alerts results,
    NoDup (all_paths assets) ->
    (sym, cg_id) ∈ assets ->
    (k, v) ∈ fetch_metrics e sym ->
    window fs (hist_path cg_id k) = None
    \/ compute_zscore v (load_hist fs cg_id k 90) = None ->
    check_assets cfg e assets fs alerts results = None.
Proof.
  induction assets as [|[s0 c0] rest IH]; intros fs alerts results Hnd Hin Hk Hbad;
    [by apply elem_of_nil in Hin |].
  rewrite all_paths_cons in Hnd.
  apply NoDup_app in Hnd as (Hnd1 & Hdisj & Hnd2).
  simpl.
  destruct (check_asset e fs s0 c0) as [[r fs1]|] eqn:Hone; [| done].
  simpl.
  apply elem_of_cons in Hin as [Heq | Hin].
  - injection Heq as -> ->.
    by rewrite (check_asset_fails e fs s0 c0 k v Hnd1 Hk Hbad) in Hone.
  - apply IH; [done | done | done |].
    destruct (check_asset_spec _ _ _ _ _ _ Hnd1 Hone) as [_ Hframe].
    assert (Hsame : fs1 !! hist_path cg_id k = fs !! hist_path cg_id k).
    { apply Hframe. intros Hq. apply (Hdisj _ Hq).
      apply (all_paths_elem rest sym cg_id); [done |].
      by eapply asset_paths_elem. }
    destruct Hbad as [Hw | Hz]; [left | right].
    + unfold window in *. by rewrite Hsame.
    + by rewrite (load_hist_ext fs fs1).
Qed.

Lemma check_asset_scorable (e : env) (fs : gmap string file) (sym cg_id : string) :
  NoDup (asset_paths cg_id) ->
  (forall k v, (k, v) ∈ fetch_metrics e sym ->
     exists l, window fs (hist_path cg_id k) = Some l /\
               is_Some (compute_zscore v (PList (lastn 90 l)))) ->
  is_Some (check_asset e fs sym cg_id).
Proof.
  intros Hnd Hok. unfold check_asset.
  destruct (history_pass_total cg_id (fetch_metrics e sym) fs [] Hnd)
    as [[hs fs1] Hpass].
  { intros k Hk. rewrite metric_names in Hk.
    destruct (metric_value e sym k Hk) as [v Hv].
    destruct (Hok k v Hv) as (l & -> & _). by eexists. }
  rewrite Hpass. simpl. unfold compute_overheat_score.
  destruct (history_pass_spec cg_id (fetch_metrics e sym) _ _ _ _ Hnd Hpass)
    as (Hkeys & _ & _).
  destruct (zscores_total (fetch_metrics e sym) hs []) as [z ->]; [| by eexists].
  intros k v Hin. destruct (Hkeys k v Hin) as (l & Hw & Hget & _).
  unfold dict_get_default. rewrite Hget. simpl.
  destruct (Hok k v Hin) as (l' & Hw' & Hz).
  by rewrite (load_hist_lastn _ _ _ _ Hw').
Qed.

Lemma check_assets_scorable (cfg : config) (e : env) (assets : dict string) :
  forall (fs : gmap string file) alerts results,
    NoDup (all_paths assets) ->
    scorable e fs assets ->
    is_Some (check_assets cfg e assets fs alerts results).
Proof.
  induction assets as [|[sym cg_id] rest IH]; intros fs alerts results Hnd Hok;
    [by eexists |].
  rewrite all_paths_cons in Hnd.
  apply NoDup_app in Hnd as (Hnd1 & Hdisj & Hnd2).
  simpl.
  destruct (check_asset_scorable e fs sym cg_id Hnd1) as [[r fs1] Hone].
  { intros k v Hv. apply (Hok sym cg_id); [left | done]. }
  rewrite Hone. simpl. apply IH; [done |].
  destruct (check_asset_spec _ _ _ _ _ _ Hnd1 Hone) as [_ Hframe].
  intros s c k v Hin Hv.
  destruct (Hok s c k v) as (l & Hw & Hz); [by right | done |].
  exists l. split; [| done]. unfold window in *. rewrite Hframe; [done |].
  intros Hq. apply (Hdisj _ Hq). apply (all_paths_elem rest s c); [done |].
  by eapply asset_paths_elem.
Qed.

(** X12.  A pass completes exactly when every history file it touches is
    missing, corrupt or a list whose last 90 entries can be scored; a file
    that decodes to anything else, or a window of two or more entries that
    are not all numbers, makes the whole pass raise before anything is
    sent. *)
Theorem single_check_completes_iff (cfg : config)
    (detailed_body : string -> tag -> check_record -> string)
    (e : env) (fs : gmap string file) :
  (is_Some (single_check cfg detailed_body e fs) <-> scorable e fs ASSETS) /\
  (forall sym cg_id k v,
     (sym, cg_id) ∈ ASSETS -> (k, v) ∈ fetch_metrics e sym ->
     window fs (hist_path cg_id k) = None
     \/ compute_zscore v (load_hist fs cg_id k 90) = None ->
     single_check cfg detailed_body e fs = None).
Proof.
  assert (Hfail : forall sym cg_id k v,
     (sym, cg_id) ∈ ASSETS -> (k, v) ∈ fetch_metrics e sym ->
     window fs (hist_path cg_id k) = None
     \/ compute_zscore v (load_hist fs cg_id k 90) = None ->
     single_check cfg detailed_body e fs = None).
  { intros sym cg k v Hin Hv Hbad. unfold single_check.
    by rewrite (check_assets_fails cfg e ASSETS sym cg k v _ _ _
                  NoDup_all_paths Hin Hv Hbad). }
  split; [| exact Hfail]. split.
  - intros [res Hrun] sym cg k v Hin Hv.
    destruct (window fs (hist_path cg k)) as [l|] eqn:Hw.
    + exists l. split; [done |].
      destruct (compute_zscore v (PList (lastn 90 l))) as [zk|] eqn:Hz;
        [by eexists |].
      rewrite (Hfail sym cg k v Hin Hv) in Hrun; [done |].
      right. by rewrite (load_hist_lastn _ _ _ _ Hw).
    + rewrite (Hfail sym cg k v Hin Hv) in Hrun; [done | by left].
  - intros Hok. unfold single_check.
    destruct (check_assets_scorable cfg e ASSETS fs [] [] NoDup_all_paths Hok)
      as [[[alerts results] fs1] ->].
    by eexists.
Qed.

Lemma single_check_completes_iff_witness :
  single_check default_config (fun title _ _ => title) offline
    {[hist_path "bitcoin" "funding_rate" := Parsed (PDict [])]} = None.
Proof.
  apply (proj2 (single_check_completes_iff default_config
                  (fun title _ _ => title) offline
                  {[hist_path "bitcoin" "funding_rate" := Parsed (PDict [])]})
           "BTC" "bitcoin" "funding_rate" 0).
  - left.
  - unfold fetch_metrics. do 3 right. left.
  - left. unfold window. by rewrite lookup_singleton_eq.
Defined.

(** ** What a pass writes and returns *)

Lemma single_check_window (cfg : config)
    (detailed_body : string -> tag -> check_record -> string)
    (e : env) (fs fs' : gmap string file) (out : outcome) (sent : list delivery)
    (q : string) :
  single_check cfg detailed_body e fs = Some (out, fs', sent) ->
  q ∈ all_paths ASSETS ->
  exists l v,
    window fs q = Some l /\
    fs' !! q = Some (Parsed (PList (lastn 180 (l ++ [PNum v])))).
Proof.
  intros Hrun Hq.
  destruct (all_paths_inv _ _ Hq) as (sym & cg & k & Hin & Hk & ->).
  destruct (single_check_asset _ _ _ _ _ _ _ _ _ Hrun Hin)
    as (r & _ & _ & _ & _ & _ & Hkeys).
  destruct (metric_value e sym k Hk) as [v Hv].
  destruct (Hkeys k v Hv) as (l & Hw & _ & Hfile).
  by exists l, v.
Qed.

Lemma check_assets_forall (P : check_record -> Prop) (cfg : config) (e : env)
    (assets : dict string) :
  (forall fs sym cg_id r fs', check_asset e fs sym cg_id = Some (r, fs') -> P r) ->
  forall fs alerts results alerts' results' fs',
    check_assets cfg e assets fs alerts results = Some (alerts', results', fs') ->
    Forall P results -> Forall P results'.
Proof.
  intros HP. induction assets as [|[sym cg_id] rest IH];
    intros fs alerts results alerts' results' fs' Hrun Hall.
  - simpl in Hrun. by simplify_eq.
  - simpl in Hrun.
    destruct (check_asset e fs sym cg_id) as [[r fs1]|] eqn:Hone; [| done].
    simpl in Hrun. apply (IH _ _ _ _ _ _ Hrun).
    apply Forall_app. split; [done |]. apply Forall_singleton. by eapply HP.
Qed.

Lemma check_asset_shape (e : env) (fs fs' : gmap string file)
    (sym cg_id : string) (r : check_record) :
  check_asset e fs sym cg_id = Some (r, fs') ->
  rec_time r = now_utc_str e /\
  rec_score r = normalize_score (weighted_raw (rec_z r)) (-3) 3 /\
  (rec_metrics r).*1 = METRICS /\
  (rec_z r).*1 = METRICS.
Proof.
  unfold check_asset. intros Hrun.
  destruct (history_pass cg_id (fetch_metrics e sym) fs [])
    as [[hs fs1]|]; [| done].
  simpl in Hrun.
  destruct (compute_overheat_score (fetch_metrics e sym) hs)
    as [[score z]|] eqn:Hscore; [| done].
  simpl in Hrun. injection Hrun as <- <-. simpl.
  unfold compute_overheat_score in Hscore.
  destruct (zscores (fetch_metrics e sym) hs []) as [z'|] eqn:Hz; [| done].
  simpl in Hscore. injection Hscore as <- <-.
  split; [done |]. split; [done |]. split; [done |].
  rewrite (zscores_keys (fetch_metrics e sym) hs [] z' NoDup_METRICS);
    [done | by intros k _ ?%elem_of_nil | done].
Qed.

Lemma normalize_score_range (raw : R) : 0 <= normalize_score raw (-3) 3 <= 100.
Proof.
  unfold normalize_score, Rmin. rle_cases; unfold Rmax; rle_cases; lra.
Qed.

Lemma single_check_records_shape (cfg : config)
    (detailed_body : string -> tag -> check_record -> string)
    (e : env) (fs fs' : gmap string file) (out : outcome) (sent : list delivery) :
  single_check cfg detailed_body e fs = Some (out, fs', sent) ->
  Forall (fun r => 0 <= rec_score r <= 100) (out_results out).
Proof.
  intros Hrun. unfold single_check in Hrun.
  destruct (check_assets cfg e ASSETS fs [] []) as [[[alerts results] fs1]|]
    eqn:Hloop; [| done].
  simpl in Hrun. injection Hrun as <- _ _. simpl.
  apply (check_assets_forall _ cfg e ASSETS
           (fun fs sym cg r fs' H =>
              eq_ind_r (fun s => 0 <= s <= 100)
                (normalize_score_range (weighted_raw (rec_z r)))
                (proj1 (proj2 (check_asset_shape e fs fs' sym cg r H))))
           _ _ _ _ _ _ Hloop).
  constructor.
Qed.

(** X13.  The records of a completed pass: one per asset, BTC then ETH,
    each stamped with the time of the pass, with the normalised aggregate
    of its z-scores as score, and with the six metrics, and their six
    z-scores, in the order of the dictionary. *)
Theorem single_check_records (cfg : config)
    (detailed_body : string -> tag -> check_record -> string)
    (e : env) (fs fs' : gmap string file) (out : outcome) (sent : list delivery) :
  single_check cfg detailed_body e fs = Some (out, fs', sent) ->
  rec_symbol <$> out_results out = ["BTC"; "ETH"] /\
  Forall (fun r =>
            rec_time r = out_time out /\
            rec_score r = normalize_score (weighted_raw (rec_z r)) (-3) 3 /\
            (rec_metrics r).*1 = METRICS /\
            (rec_z r).*1 = METRICS)
         (out_results out).
Proof.
  intros Hrun.
  destruct (single_check_spec _ _ _ _ _ _ _ Hrun) as (Ht & _ & Hall & _).
  split; [by rewrite (results_symbols _ _ _ _ _ Hall) |].
  rewrite Ht. unfold single_check in Hrun.
  destruct (check_assets cfg e ASSETS fs [] []) as [[[alerts results] fs1]|]
    eqn:Hloop; [| done].
  simpl in Hrun. injection Hrun as <- _ _. simpl.
  apply (check_assets_forall _ cfg e ASSETS
           (fun fs sym cg r fs' H => check_asset_shape e fs fs' sym cg r H)
           _ _ _ _ _ _ Hloop).
  constructor.
Qed.

Lemma single_check_records_witness :
  exists out fs' sent,
    single_check default_config (fun title _ _ => title) (feed 1) ∅
    = Some (out, fs', sent) /\
    rec_symbol <$> out_results out = ["BTC"; "ETH"] /\
    Forall (fun r => (rec_z r).*1 = METRICS) (out_results out).
Proof.
  destruct (single_check_total default_config (fun title _ _ => title)
              (feed 1) ∅) as [[[out fs'] sent] Hrun].
  { intros q _. exists []. unfold window. by rewrite lookup_empty. }
  exists out, fs', sent. split; [exact Hrun |].
  destruct (single_check_records _ _ _ _ _ _ _ Hrun) as [Hsyms Hrecs].
  split; [exact Hsyms |].
  eapply Forall_impl; [exact Hrecs |]. by intros r (_ & _ & _ & Hz).
Defined.

(** X14.  What a completed pass writes: every history file of the two
    assets receives exactly one more entry (and is cut to its last 180),
    [last_run.json] is replaced by the records and alerts of the pass, and
    no other file changes. *)
Theorem single_check_writes (cfg : config)
    (detailed_body : string -> tag -> check_record -> string)
    (e : env) (fs fs' : gmap string file) (out : outcome) (sent : list delivery) :
  single_check cfg detailed_body e fs = Some (out, fs', sent) ->
  (forall q, q ∈ all_paths ASSETS ->
     exists l v,
       window fs q = Some l /\
       fs' !! q = Some (Parsed (PList (lastn 180 (l ++ [PNum v]))))) /\
  fs' !! path_join HIST_DIR "last_run.json"
  = Some (Parsed (last_run_json (out_time out) (out_results out) (out_alerts out))) /\
  (forall q, q ∉ all_paths ASSETS -> q <> path_join HIST_DIR "last_run.json" ->
     fs' !! q = fs !! q).
Proof.
  intros Hrun. split; [| split].
  - intros q Hq. by eapply single_check_window.
  - unfold single_check in Hrun.
    destruct (check_assets cfg e ASSETS fs [] []) as [[[alerts results] fs1]|];
      [| done].
    simpl in Hrun. injection Hrun as <- <- _. simpl.
    by rewrite lookup_insert_eq.
  - by destruct (single_check_spec _ _ _ _ _ _ _ Hrun) as (_ & _ & _ & _ & Hframe).
Qed.

Lemma single_check_writes_witness :
  exists out fs' sent,
    single_check default_config (fun title _ _ => title) (feed 1) ∅
    = Some (out, fs', sent) /\
    fs' !! "unrelated.txt" = None.
Proof.
  destruct (single_check_total default_config (fun title _ _ => title)
              (feed 1) ∅) as [[[out fs'] sent] Hrun].
  { intros q _. exists []. unfold window. by rewrite lookup_empty. }
  exists out, fs', sent. split; [exact Hrun |].
  rewrite (proj2 (proj2 (single_check_writes _ _ _ _ _ _ _ Hrun)));
    [apply lookup_empty | compute_done | done].
Defined.

(** ** Successive passes *)

Lemma typed_window_list (fs : gmap string file) (q : string) :
  typed_store fs ASSETS -> q ∈ all_paths ASSETS ->
  exists l, window fs q = Some l.
Proof. intros Hty Hq. destruct (Hty q Hq) as [xs Hxs]. by eexists. Qed.

(** X15.  Passes never break the files they write.  As long as the
    fetchers return (finite numbers) and the files can be written, from a
    store whose history files are missing, corrupt or lists of finite
    floats any number of successive passes complete, the files stay lists
    of finite floats, and a history that held [n <= 180] values holds
    [min (n + passes, 180)] afterwards. *)
Theorem run_passes_complete (cfg : config)
    (detailed_body : string -> tag -> check_record -> string)
    (es : list env) :
  forall fs : gmap string file,
    typed_store fs ASSETS ->
    exists outs fs',
      run_passes cfg detailed_body es fs = Some (outs, fs') /\
      length outs = length es /\
      typed_store fs' ASSETS /\
      (forall q l,
         q ∈ all_paths ASSETS -> window fs q = Some l ->
         (length l <= 180)%nat ->
         exists l',
           window fs' q = Some l' /\
           length l' = ((length l + length es) `min` 180)%nat).
Proof.
  induction es as [|e rest IH]; intros fs Hty.
  - exists [], fs. simpl. split; [done |]. split; [done |]. split; [done |].
    intros q l _ Hw Hlen. exists l. split; [done | lia].
  - destruct (single_check_total cfg detailed_body e fs Hty)
      as [[[out fs1] sent] Hrun].
    pose proof (single_check_keeps_typed _ _ _ _ _ _ _ Hrun Hty) as Hty1.
    destruct (IH fs1 Hty1) as (outs & fs' & Hrest & Hlen & Hty' & Hgrow).
    exists (out :: outs), fs'. simpl. rewrite Hrun. simpl. rewrite Hrest. simpl.
    split; [done |]. split; [by rewrite Hlen |]. split; [done |].
    intros q l Hq Hw Hl.
    destruct (single_check_window _ _ _ _ _ _ _ q Hrun Hq) as (l0 & v & Hw0 & Hfile).
    rewrite Hw in Hw0. injection Hw0 as <-.
    destruct (Hgrow q (lastn 180 (l ++ [PNum v])) Hq) as (l' & Hw' & Hlen').
    + unfold window. by rewrite Hfile.
    + rewrite lastn_length. lia.
    + exists l'. split; [done |].
      rewrite Hlen', lastn_length, length_app. simpl. lia.
Qed.

Lemma run_passes_complete_witness :
  exists outs fs' l',
    run_passes default_config (fun title _ _ => title)
      [offline; feed 1; feed 2] ∅ = Some (outs, fs') /\
    window fs' (hist_path "bitcoin" "funding_rate") = Some l' /\
    length l' = 3%nat.
Proof.
  destruct (run_passes_complete default_config (fun title _ _ => title)
              [offline; feed 1; feed 2] ∅)
    as (outs & fs' & Hrun & _ & _ & Hgrow).
  { intros q _. exists []. unfold window. by rewrite lookup_empty. }
  destruct (Hgrow (hist_path "bitcoin" "funding_rate") [])
    as (l' & Hw & Hlen).
  - compute_done.
  - unfold window. by rewrite lookup_empty.
  - simpl. lia.
  - exists outs, fs', l'. split; [exact Hrun |]. split; [exact Hw |].
    exact Hlen.
Defined.

(** ** Young histories *)

Lemma compute_zscore_short (value : R) (l : list pyval) :
  (length l < 2)%nat -> compute_zscore value (PList l) = Some 0.
Proof.
  intros Hlen. destruct l as [|a [|b l]]; [done | done | simpl in Hlen; lia].
Qed.

Lemma asset_checked_short (e : env) (fs fs' : gmap string file)
    (sym cg_id : string) (r : check_record) :
  (forall q, q ∈ asset_paths cg_id ->
     exists l, window fs q = Some l /\ (length l < 2)%nat) ->
  asset_checked e fs fs' sym cg_id r ->
  rec_score r = 50.
Proof.
  intros Hshort (_ & _ & _ & -> & Hkeys).
  rewrite weighted_raw_zero; [apply normalize_score_zero |].
  intros k Hk. destruct (metric_value e sym k Hk) as [v Hv].
  destruct (Hkeys k v Hv) as (l & Hw & -> & _).
  destruct (Hshort _ (asset_paths_elem cg_id k v e sym Hv)) as (l' & Hw' & Hlen).
  rewrite (load_hist_lastn _ _ _ _ Hw').
  apply compute_zscore_short. rewrite lastn_length. lia.
Qed.

Lemma scorable_short (e : env) (fs : gmap string file) :
  (forall q, q ∈ all_paths ASSETS ->
     exists l, window fs q = Some l /\ (length l < 2)%nat) ->
  scorable e fs ASSETS.
Proof.
  intros Hshort sym cg k v Hin Hv.
  destruct (Hshort (hist_path cg k)) as (l & Hw & Hlen).
  { eapply all_paths_elem; [done |]. by eapply asset_paths_elem. }
  exists l. split; [done |]. rewrite compute_zscore_short; [by eexists |].
  rewrite lastn_length. lia.
Qed.

Lemma single_check_scorable (cfg : config)
    (detailed_body : string -> tag -> check_record -> string)
    (e : env) (fs : gmap string file) :
  scorable e fs ASSETS -> is_Some (single_check cfg detailed_body e fs).
Proof.
  intros Hok. unfold single_check.
  destruct (check_assets_scorable cfg e ASSETS fs [] [] NoDup_all_paths Hok)
    as [[[alerts results] fs1] ->].
  by eexists.
Qed.

Lemma young_pass (cfg : config)
    (detailed_body : string -> tag -> check_record -> string)
    (e : env) (fs : gmap string file) :
  (forall q, q ∈ all_paths ASSETS ->
     exists l, window fs q = Some l /\ (length l < 2)%nat) ->
  exists out fs' sent,
    single_check cfg detailed_body e fs = Some (out, fs', sent) /\
    Forall (fun r => rec_score r = 50) (out_results out) /\
    (OVERSOLD_THRESHOLD cfg < 50 -> 50 < OVERHEAT_THRESHOLD cfg ->
       out_alerts out = [] /\ sent = []) /\
    (forall q, q ∈ all_paths ASSETS ->
       exists l v, window fs q = Some l /\
                   window fs' q = Some (l ++ [PNum v])).
Proof.
  intros Hshort.
  destruct (single_check_scorable cfg detailed_body e fs
              (scorable_short e fs Hshort)) as [[[out fs'] sent] Hrun].
  exists out, fs', sent. split; [done |].
  destruct (single_check_spec _ _ _ _ _ _ _ Hrun)
    as (_ & Halerts & Hall & Hsent & _).
  assert (Hscores : Forall (fun r => rec_score r = 50) (out_results out)).
  { apply Forall_forall. intros r Hr.
    apply list_elem_of_lookup_1 in Hr as [i Hi].
    destruct (Forall2_lookup_l _ _ _ _ _ Hall Hi) as ([sym cg] & Ha & Hck).
    simpl in Hck. apply list_elem_of_lookup_2 in Ha.
    apply (asset_checked_short _ _ _ _ _ _ ltac:(
      intros q Hq; apply Hshort; by eapply all_paths_elem) Hck). }
  split; [done |]. split.
  - intros Hlo Hhi.
    assert (Hnone : out_alerts out = []).
    { rewrite Halerts. apply omap_none. eapply Forall_impl; [exact Hscores |].
      intros r Hs. unfold alert_of, alert_tag. simpl in Hs. rewrite Hs.
      destruct (Rge_dec 50 (OVERHEAT_THRESHOLD cfg)); [lra |].
      destruct (Rle_dec 50 (OVERSOLD_THRESHOLD cfg)); [lra | done]. }
    split; [done |]. by rewrite Hsent, Hnone.
  - intros q Hq.
    destruct (single_check_window _ _ _ _ _ _ _ q Hrun Hq) as (l & v & Hw & Hfile).
    exists l, v. split; [done |]. unfold window. rewrite Hfile.
    destruct (Hshort q Hq) as (l' & Hw' & Hlen). rewrite Hw in Hw'.
    injection Hw' as <-. f_equal. apply lastn_all.
    rewrite length_app. simpl. lia.
Qed.

(** X16.  While every history holds fewer than two values, a pass in
    which the fetchers return and the files can be written completes, and
    every score is exactly 50 whatever values the fetchers returned; with
    thresholds on either side of 50 no alert is queued and nothing is sent,
    and each history is one value longer afterwards.  So over a store with
    empty histories the pass after this one scores 50 as well. *)
Theorem young_history_is_neutral (cfg : config)
    (detailed_body : string -> tag -> check_record -> string)
    (e : env) (fs : gmap string file) :
  (forall q, q ∈ all_paths ASSETS ->
     exists l, window fs q = Some l /\ (length l < 2)%nat) ->
  exists out fs' sent,
    single_check cfg detailed_body e fs = Some (out, fs', sent) /\
    Forall (fun r => rec_score r = 50) (out_results out) /\
    (OVERSOLD_THRESHOLD cfg < 50 -> 50 < OVERHEAT_THRESHOLD cfg ->
       out_alerts out = [] /\ sent = []) /\
    (forall q, q ∈ all_paths ASSETS ->
       exists l v, window fs q = Some l /\
                   window fs' q = Some (l ++ [PNum v])) /\
    ((forall q, q ∈ all_paths ASSETS -> window fs q = Some []) ->
     forall e2, exists out2 fs2 sent2,
       single_check cfg detailed_body e2 fs' = Some (out2, fs2, sent2) /\
       Forall (fun r => rec_score r = 50) (out_results out2)).
Proof.
  intros Hshort.
  destruct (young_pass cfg detailed_body e fs Hshort)
    as (out & fs' & sent & Hrun & Hscores & Hal & Hgrow).
  exists out, fs', sent. repeat (split; [done |]).
  intros Hempty e2.
  destruct (young_pass cfg detailed_body e2 fs')
    as (out2 & fs2 & sent2 & Hrun2 & Hscores2 & _).
  { intros q Hq. destruct (Hgrow q Hq) as (l & v & Hw & Hw').
    rewrite (Hempty q Hq) in Hw. injection Hw as <-.
    exists [PNum v]. split; [done | simpl; lia]. }
  by exists out2, fs2, sent2.
Qed.

Lemma young_history_is_neutral_witness :
  exists out fs' sent,
    single_check default_config (fun title _ _ => title) (feed 7) ∅
    = Some (out, fs', sent) /\
    Forall (fun r => rec_score r = 50) (out_results out) /\
    out_alerts out = [].
Proof.
  destruct (young_history_is_neutral default_config (fun title _ _ => title)
              (feed 7) ∅)
    as (out & fs' & sent & Hrun & Hscores & Hal & _).
  { intros q _. exists []. unfold window. rewrite lookup_empty.
    split; [done | simpl; lia]. }
  exists out, fs', sent. split; [exact Hrun |]. split; [exact Hscores |].
  apply Hal; simpl; lra.
Defined.

(** ** Deliveries *)

(** X17.  A delivery is reported successful only when its channel is
    configured and accepted the message: for the mail, all three mail
    secrets are set and the SMTP exchange ran to its end; for ServerChan,
    the send key is set and the answer was HTTP 200.  With a secret
    missing, the channel is never contacted with success, whatever the
    alerts. *)
Theorem delivery_success_needs_credentials (cfg : config)
    (detailed_body : string -> tag -> check_record -> string)
    (e : env) (alerts : list (tag * check_record)) (d : delivery) :
  d ∈ notify cfg detailed_body e alerts ->
  d_ok d = true ->
  (via d = Email /\
   secret_set (GMAIL_USER cfg) = true /\
   secret_set (GMAIL_APP_PASS cfg) = true /\
   secret_set (ALERT_EMAIL_TO cfg) = true /\
   smtp_session e (d_title d) (d_content d) = true) \/
  (via d = ServerChan /\
   secret_set (SERVERCHAN_SENDKEY cfg) = true /\
   serverchan_post e (d_title d) (d_content d) = Some 200%Z).
Proof.
  induction alerts as [|[t r] rest IH]; intros Hin Hok;
    [by apply elem_of_nil in Hin |].
  simpl in Hin.
  apply elem_of_cons in Hin as [-> | Hin];
    [| apply elem_of_cons in Hin as [-> | Hin]; [| by apply IH]].
  - left. simpl in *. unfold send_email_gmail_shorttitle in Hok.
    destruct (secret_set (GMAIL_USER cfg)), (secret_set (GMAIL_APP_PASS cfg)),
      (secret_set (ALERT_EMAIL_TO cfg)); simpl in Hok; try done.
    by destruct (smtp_session e _ _).
  - right. simpl in *. unfold send_serverchan in Hok.
    destruct (secret_set (SERVERCHAN_SENDKEY cfg)); simpl in Hok; [| done].
    destruct (serverchan_post e _ _) as [status|]; [| done].
    destruct (Z.eqb_spec status 200); [by subst | done].
Qed.

Lemma delivery_success_needs_credentials_witness :
  secret_set (Some "SCT1") = true /\
  serverchan_post
    {| now_utc_str := "2024-01-01 00:00:00 UTC";
       fetch_price_coingecko := fun _ => {| price := None; price_change_24h_pct := None |};
       glassnode_try := fun _ _ => None;
       smtp_session := fun _ _ => false;
       serverchan_post := fun _ _ => Some 200%Z |}
    (alert_title OVERHEAT "BTC") (fenced (alert_title OVERHEAT "BTC"))
  = Some 200%Z.
Proof.
  destruct (delivery_success_needs_credentials
    {| GMAIL_USER := None; GMAIL_APP_PASS := None; ALERT_EMAIL_TO := None;
       SERVERCHAN_SENDKEY := Some "SCT1";
       OVERHEAT_THRESHOLD := 60; OVERSOLD_THRESHOLD := 30 |}
    (fun title _ _ => title)
    {| now_utc_str := "2024-01-01 00:00:00 UTC";
       fetch_price_coingecko := fun _ => {| price := None; price_change_24h_pct := None |};
       glassnode_try := fun _ _ => None;
       smtp_session := fun _ _ => false;
       serverchan_post := fun _ _ => Some 200%Z |}
    [(OVERHEAT, sample_record "BTC" 80)]
    {| via := ServerChan; d_title := alert_title OVERHEAT "BTC";
       d_content := fenced (alert_title OVERHEAT "BTC"); d_ok := true |})
    as [(Hv & _) | (_ & Hkey & Hpost)].
  - right. left.
  - reflexivity.
  - discriminate Hv.
  - split; [exact Hkey | exact Hpost].
Defined.

Lemma string_app_nil_l (s : string) : "" +:+ s = s.
Proof. reflexivity. Qed.

(** X18.  The title tells the alerts apart: two titles are equal only for
    the same tag and the same symbol. *)
Theorem alert_title_injective (t t' : tag) (sym sym' : string) :
  alert_title t sym = alert_title t' sym' <-> t = t' /\ sym = sym'.
Proof.
  split; [| by intros [-> ->]].
  unfold alert_title. intros Heq.
  destruct t, t'; rewrite ?string_app_cons, ?string_app_nil_l in Heq;
    try discriminate Heq.
  - split; [done |]. simplify_eq. by eapply string_app_inv_tail.
  - split; [done |]. simplify_eq. by eapply string_app_inv_tail.
Qed.

Lemma alert_title_injective_witness :
  alert_title OVERHEAT "BTC" <> alert_title OVERSOLD "BTC" /\
  alert_title OVERHEAT "BTC" <> alert_title OVERHEAT "ETH".
Proof.
  split; intros Heq;
    apply (proj1 (alert_title_injective _ _ _ _)) in Heq as [Ht Hs];
    discriminate.
Defined.

(** ** The fetchers *)

Lemma glassnode_series_last (points : list pyval) (x : pyval) :
  match points ++ [x] with
  | point :: rest =>
      match last (point :: rest) with
      | Some (PDict kv) => default PNone (dict_get kv "v")
      | _ => PNone
      end
  | [] => PList (points ++ [x])
  end
  = match x with
    | PDict kv => default PNone (dict_get kv "v")
    | _ => PNone
    end.
Proof.
  destruct (points ++ [x]) as [|y rest] eqn:Heq; [by destruct points |].
  rewrite <- Heq, last_snoc. by destruct x.
Qed.

Lemma py_float_num (parse_float : string -> option R) (x : R) :
  (Rabs x < FLOAT_OVERFLOW -> py_float parse_float (PNum x) = Some x) /\
  (FLOAT_OVERFLOW <= Rabs x -> py_float parse_float (PNum x) = None).
Proof.
  unfold py_float. destruct (Rlt_dec (Rabs x) FLOAT_OVERFLOW); split; intros; (done || lra).
Qed.

(** X19.  A Glassnode-backed fetch degrades to 0.0 without raising when
    the key is unset, when the request fails and when the last point of
    the series is not an object or has no value; for a series whose last
    point carries a value it is [float] of that value: the number itself
    when a binary64 float can hold it, an exception for an integer beyond
    that range, for a list and for an object.  It also raises, instead of
    degrading, when the answer is an empty series or a JSON object. *)
Theorem fetch_glassnode_cases (parse_float : string -> option R)
    (api_key : option string) (response : option pyval) :
  (secret_set api_key = false \/ response = None ->
     fetch_glassnode_value parse_float api_key response = Some 0) /\
  (secret_set api_key = true ->
     (forall points x,
        response = Some (PList (points ++ [x])) ->
        (forall kv, x <> PDict kv) ->
        fetch_glassnode_value parse_float api_key response = Some 0) /\
     (forall points kv,
        response = Some (PList (points ++ [PDict kv])) ->
        (dict_get kv "v" = None \/ dict_get kv "v" = Some PNone ->
           fetch_glassnode_value parse_float api_key response = Some 0) /\
        (forall x, dict_get kv "v" = Some (PNum x) ->
           Rabs x < FLOAT_OVERFLOW ->
           fetch_glassnode_value parse_float api_key response = Some x) /\
        (forall x, dict_get kv "v" = Some (PNum x) ->
           FLOAT_OVERFLOW <= Rabs x ->
           fetch_glassnode_value parse_float api_key response = None) /\
        (forall s, dict_get kv "v" = Some (PStr s) ->
           fetch_glassnode_value parse_float api_key response = parse_float s) /\
        (forall v, dict_get kv "v" = Some v ->
           (exists l, v = PList l) \/ (exists d, v = PDict d) ->
           fetch_glassnode_value parse_float api_key response = None)) /\
     (response = Some (PList []) ->
        fetch_glassnode_value parse_float api_key response = None) /\
     (forall kv,
        response = Some (PDict kv) ->
        fetch_glassnode_value parse_float api_key response = None)).
Proof.
  unfold fetch_glassnode_value, glassnode_try_value. split.
  - intros [-> | ->]; [done |]. by destruct (secret_set api_key).
  - intros ->. simpl. split; [| split; [| split]].
    + intros points x -> Hx.
      rewrite (glassnode_series_last points x).
      destruct x; try done. by destruct (Hx d).
    + intros points kv ->.
      rewrite (glassnode_series_last points (PDict kv)).
      split; [| split; [| split; [| split]]].
      * by intros [-> | ->].
      * intros x -> Hx. by apply (py_float_num parse_float x).
      * intros x -> Hx. by apply (py_float_num parse_float x).
      * by intros s ->.
      * by intros v -> [[l ->] | [d ->]].
    + by intros ->.
    + by intros kv ->.
Qed.

Lemma float_overflow_above (n : Z) :
  (0 <= n < 2 ^ 1024 - 2 ^ 970)%Z -> Rabs (IZR n) < FLOAT_OVERFLOW.
Proof.
  intros [H0 Hn]. rewrite Rabs_pos_eq by (by apply IZR_le).
  by apply IZR_lt.
Qed.

Lemma fetch_glassnode_cases_witness :
  fetch_glassnode_value (fun _ => None) (Some "key")
    (Some (PList [PDict [("t", PNum 1); ("v", PNum 5)]])) = Some 5 /\
  fetch_glassnode_value (fun _ => None) (Some "key")
    (Some (PList [PDict [("t", PNum 1); ("v", PNum (IZR (2 ^ 1024)))]])) = None /\
  fetch_glassnode_value (fun _ => None) (Some "key") (Some (PList [])) = None /\
  fetch_glassnode_value (fun _ => None) None (Some (PList [])) = Some 0.
Proof.
  split; [| split; [| split]].
  - apply (proj1 (proj2 (proj1 (proj2 (proj2 (fetch_glassnode_cases (fun _ => None)
             (Some "key") (Some (PList [PDict [("t", PNum 1); ("v", PNum 5)]])))
             eq_refl)) [] _ eq_refl)) 5); [reflexivity |].
    apply (float_overflow_above 5). split; [lia | reflexivity].
  - apply (proj1 (proj2 (proj2 (proj1 (proj2 (proj2 (fetch_glassnode_cases
             (fun _ => None) (Some "key")
             (Some (PList [PDict [("t", PNum 1); ("v", PNum (IZR (2 ^ 1024)))]])))
             eq_refl)) [] _ eq_refl))) (IZR (2 ^ 1024))); [reflexivity |].
    rewrite Rabs_pos_eq by (apply IZR_le; done).
    apply IZR_le. done.
  - exact (proj1 (proj2 (proj2 (proj2 (fetch_glassnode_cases (fun _ => None)
             (Some "key") (Some (PList []))) eq_refl))) eq_refl).
  - apply (proj1 (fetch_glassnode_cases (fun _ => None) None (Some (PList [])))).
    by left.
Defined.

(** X20.  [fetch_price_coingecko] returns no price and no change, without
    raising, when the request fails or the answer is empty; from a list
    whose first item is an object it returns the two fields of that item,
    Python's [None] for a missing one.  It raises when the answer is a
    non-empty JSON object or a list whose first item is not an object. *)
Theorem fetch_price_coingecko_cases (j : option pyval) :
  (j = None \/ (exists v, j = Some v /\ truthy v = false) ->
     fetch_price_coingecko_value j = Some (PNone, PNone)) /\
  (forall kv rest,
     j = Some (PList (PDict kv :: rest)) ->
     fetch_price_coingecko_value j
     = Some (default PNone (dict_get kv "current_price"),
             default PNone (dict_get kv "price_change_percentage_24h"))) /\
  (forall kv, kv <> [] -> j = Some (PDict kv) ->
     fetch_price_coingecko_value j = None) /\
  (forall x rest, (forall kv, x <> PDict kv) ->
     j = Some (PList (x :: rest)) ->
     fetch_price_coingecko_value j = None).
Proof.
  unfold fetch_price_coingecko_value. split; [| split; [| split]].
  - intros [-> | (v & -> & Hv)]; [done | by rewrite Hv].
  - by intros kv rest ->.
  - intros kv Hne ->. by destruct kv.
  - intros x rest Hx ->. simpl. destruct x; try done. by destruct (Hx d).
Qed.

Lemma fetch_price_coingecko_cases_witness :
  fetch_price_coingecko_value
    (Some (PList [PDict [("current_price", PNum 42)]]))
  = Some (PNum 42, PNone) /\
  fetch_price_coingecko_value (Some (PDict [("error", PStr "limit")])) = None.
Proof.
  split.
  - exact (proj1 (proj2 (fetch_price_coingecko_cases _)) _ [] eq_refl).
  - apply (proj1 (proj2 (proj2 (fetch_price_coingecko_cases
             (Some (PDict [("error", PStr "limit")])))))
             [("error", PStr "limit")]); done.
Defined.

(** ** Thresholds *)

(** X21.  The alert is monotone in the score: above an OVERHEAT score every
    score is OVERHEAT, below an OVERSOLD score every score is OVERSOLD.
    A pass queues no OVERHEAT alert when the overheat threshold is above
    100 and no OVERSOLD alert when the oversold threshold is below 0. *)
Theorem alert_tag_thresholds (cfg : config)
    (detailed_body : string -> tag -> check_record -> string)
    (e : env) (fs fs' : gmap string file) (out : outcome) (sent : list delivery) :
  single_check cfg detailed_body e fs = Some (out, fs', sent) ->
  (forall s s', s <= s' -> alert_tag cfg s = Some OVERHEAT ->
     alert_tag cfg s' = Some OVERHEAT) /\
  (forall s s', s' <= s -> alert_tag cfg s = Some OVERSOLD ->
     alert_tag cfg s' = Some OVERSOLD) /\
  (100 < OVERHEAT_THRESHOLD cfg ->
     forall r, (OVERHEAT, r) ∉ out_alerts out) /\
  (OVERSOLD_THRESHOLD cfg < 0 ->
     forall r, (OVERSOLD, r) ∉ out_alerts out).
Proof.
  intros Hrun.
  destruct (single_check_spec _ _ _ _ _ _ _ Hrun) as (_ & Halerts & _).
  pose proof (single_check_records_shape _ _ _ _ _ _ _ Hrun) as Hshape.
  assert (Hrange : forall r, r ∈ out_results out -> 0 <= rec_score r <= 100).
  { intros r Hr. by apply (proj1 (Forall_forall _ _) Hshape). }
  split; [| split; [| split]].
  - unfold alert_tag. intros s s' Hle. tag_cases; try done; lra.
  - unfold alert_tag. intros s s' Hle. tag_cases; try done; lra.
  - intros Hhi r Hin. rewrite Halerts in Hin.
    apply alert_of_elem in Hin as [Hr Ht].
    pose proof (Hrange r Hr). unfold alert_tag in Ht.
    destruct (Rge_dec (rec_score r) (OVERHEAT_THRESHOLD cfg)); [lra |].
    by destruct (Rle_dec (rec_score r) (OVERSOLD_THRESHOLD cfg)).
  - intros Hlo r Hin. rewrite Halerts in Hin.
    apply alert_of_elem in Hin as [Hr Ht].
    pose proof (Hrange r Hr). unfold alert_tag in Ht.
    destruct (Rge_dec (rec_score r) (OVERHEAT_THRESHOLD cfg)); [done |].
    destruct (Rle_dec (rec_score r) (OVERSOLD_THRESHOLD cfg)); [lra | done].
Qed.

Lemma alert_tag_thresholds_witness :
  exists out fs' sent,
    single_check
      {| GMAIL_USER := None; GMAIL_APP_PASS := None; ALERT_EMAIL_TO := None;
         SERVERCHAN_SENDKEY := None;
         OVERHEAT_THRESHOLD := 101; OVERSOLD_THRESHOLD := -1 |}
      (fun title _ _ => title) (etf_feed 12 (-8)) seeded = Some (out, fs', sent) /\
    (forall r, (OVERHEAT, r) ∉ out_alerts out) /\
    (forall r, (OVERSOLD, r) ∉ out_alerts out).
Proof.
  destruct (single_check_total
      {| GMAIL_USER := None; GMAIL_APP_PASS := None; ALERT_EMAIL_TO := None;
         SERVERCHAN_SENDKEY := None;
         OVERHEAT_THRESHOLD := 101; OVERSOLD_THRESHOLD := -1 |}
      (fun title _ _ => title) (etf_feed 12 (-8)) seeded) as [[[out fs'] sent] Hrun].
  { intros q Hq. exists [1; 3]. by apply seeded_window. }
  exists out, fs', sent. split; [exact Hrun |].
  destruct (alert_tag_thresholds _ _ _ _ _ _ _ Hrun) as (_ & _ & Hhot & Hcold).
  split; [apply Hhot | apply Hcold]; simpl; lra.
Defined.

(** ** Settings *)

(** X23.  [get_secret] prefers the secrets store to the environment and
    the environment to the default, and falls back to the environment when
    the store cannot be read.  A store entry shadows the environment even
    when it is the empty string, in which case the setting counts as not
    configured although the environment variable is set. *)
Theorem get_secret_precedence (secrets : option (dict pyval))
    (environ : dict string) (key : string) (dflt : pyval) :
  (forall store v, secrets = Some store -> dict_get store key = Some v ->
     v <> PNone -> get_secret secrets environ key dflt = v) /\
  (secrets = None
   \/ (exists store, secrets = Some store /\
        (dict_get store key = None \/ dict_get store key = Some PNone)) ->
   get_secret secrets environ key dflt
   = match dict_get environ key with Some s => PStr s | None => dflt end) /\
  (forall store s, secrets = Some store ->
     dict_get store key = Some (PStr EmptyString) ->
     dict_get environ key = Some s ->
     setting_set (get_secret secrets environ key dflt) = false).
Proof.
  unfold get_secret. split; [| split].
  - intros store v -> -> Hv. by destruct v.
  - intros [-> | (store & -> & [-> | ->])]; done.
  - by intros store s -> -> _.
Qed.

Lemma get_secret_precedence_witness :
  get_secret (Some [("GMAIL_USER", PStr "a@b.c")]) [("GMAIL_USER", "x@y.z")]
    "GMAIL_USER" PNone = PStr "a@b.c" /\
  get_secret None [("GMAIL_USER", "x@y.z")] "GMAIL_USER" PNone = PStr "x@y.z" /\
  setting_set (get_secret (Some [("GMAIL_USER", PStr EmptyString)])
                 [("GMAIL_USER", "x@y.z")] "GMAIL_USER" PNone) = false.
Proof.
  split; [| split].
  - by apply (proj1 (get_secret_precedence _ _ _ _)
                [("GMAIL_USER", PStr "a@b.c")]).
  - apply (proj1 (proj2 (get_secret_precedence None [("GMAIL_USER", "x@y.z")]
                           "GMAIL_USER" PNone))). by left.
  - by apply (proj2 (proj2 (get_secret_precedence _ _ _ _))
                [("GMAIL_USER", PStr EmptyString)] "x@y.z").
Defined.
